(** * flask_oauthlib.provider.oauth1: a shallow embedding

    The OAuth1 provider glue of Flask-OAuthlib
    ([src/flask_oauthlib/provider/oauth1.py]): the request validator that
    adapts registered store callbacks to oauthlib, and the provider object
    with its view decorators.

    Python objects become records, [None] becomes [option], [set(...)] becomes
    [gset string], exceptions and mutation are threaded through a small
    state-and-exception monad. *)

From Stdlib Require Import ZArith.
From stdpp Require Import base option list strings gmap.

Open Scope string_scope.

(** ** Python values, exceptions and the effect monad *)

(** An oauthlib [OAuth1Error], as far as the decorators read it. *)
Record oauth1_error := {
  error : string;
  status_code : Z;
  urlencoded : string
}.

(** The exceptions that the embedded code can raise or let through. *)
Inductive exn :=
| AttributeError
| TypeError
| RuntimeError
| HTTPException (code : Z)
| OAuth1Error (e : oauth1_error).

Inductive result (A : Type) :=
| Ok (a : A)
| Raise (e : exn).
Arguments Ok {A} a.
Arguments Raise {A} e.

(** A computation over a mutable state [St]: a raised exception keeps the
    mutations made before it, as in Python. *)
Definition Py (St A : Type) : Type := St -> result A * St.

Definition ret {St A} (a : A) : Py St A := fun st => (Ok a, st).

Definition bind {St A B} (m : Py St A) (k : A -> Py St B) : Py St B :=
  fun st =>
    match m st with
    | (Ok a, st1) => k a st1
    | (Raise e, st1) => (Raise e, st1)
    end.

Definition raise {St A} (e : exn) : Py St A := fun st => (Raise e, st).

(** [try: m except OAuth1Error as e: h e] *)
Definition try_except {St A} (m : Py St A) (h : oauth1_error -> Py St A)
  : Py St A :=
  fun st =>
    match m st with
    | (Raise (OAuth1Error e), st1) => h e st1
    | other => other
    end.

Definition get {St} : Py St St := fun st => (Ok st, st).

Definition modify {St} (f : St -> St) : Py St unit := fun st => (Ok tt, f st).

Declare Scope py_scope.
Delimit Scope py_scope with py.
Notation "x <- c1 ;; c2" := (bind c1 (fun x => c2))
  (at level 100, c1 at next level, right associativity) : py_scope.
Notation "c1 ;; c2" := (bind c1 (fun _ => c2))
  (at level 100, right associativity) : py_scope.
Open Scope py_scope.

(** Dynamically typed values that cross the callback boundary. [PyObj] is an
    opaque object handle; objects are truthy unless they say otherwise. *)
Inductive pyval :=
| PyNone
| PyBool (b : bool)
| PyStr (s : string)
| PyInt (z : Z)
| PyObj (handle : nat).

#[global] Instance pyval_eq_dec : EqDecision pyval.
Proof. solve_decision. Defined.

Definition truthy (v : pyval) : bool :=
  match v with
  | PyNone => false
  | PyBool b => b
  | PyStr s => negb (String.eqb s "")
  | PyInt z => negb (Z.eqb z 0)
  | PyObj _ => true
  end.

(** [*args, **kwargs] of an arbitrary call. *)
Definition PyArgs : Type := list pyval * list (string * pyval).

(** [obj.attr] where [obj] may be [None] or lack the attribute. *)
Definition getattr {St A} (o : option A) : Py St A :=
  match o with
  | Some a => ret a
  | None => raise AttributeError
  end.

(** [set(x)]: [set(None)] is a [TypeError]. *)
Definition pyset {St} (x : option (list string)) : Py St (gset string) :=
  match x with
  | Some l => ret (list_to_set l)
  | None => raise TypeError
  end.

Definition issuperset (a b : gset string) : bool := bool_decide (b ⊆ a).

(** ** Data model

    An attribute is optional ([option]) exactly where the source probes it
    with [hasattr]; a plain attribute that may hold [None] is an [option]
    value. *)

Module Client.
Record t := {
  client_key : string;
  client_secret : string;
  redirect_uris : list string;
  default_realms : option (list string);
  validate_realms : option (list string -> bool)
}.
End Client.

Module RequestToken.
Record t := {
  client_key : string;
  secret : string;
  redirect_uri : option string;
  realms : option (option (list string))
}.
End RequestToken.

Module AccessToken.
Record t := {
  secret : string;
  realms : list string
}.
End AccessToken.

Module VerifierData.
Record t := {
  client_key : option string
}.
End VerifierData.

(** The per-call scratch object that oauthlib hands to every validator
    method. *)
Module Request.
Record t := {
  client : option Client.t;
  request_token : option RequestToken.t;
  access_token : option AccessToken.t;
  redirect_uri : option string
}.

Definition empty : t :=
  {| client := None; request_token := None; access_token := None;
     redirect_uri := None |}.

Definition set_client (c : option Client.t) (r : t) : t :=
  {| client := c; request_token := request_token r;
     access_token := access_token r; redirect_uri := redirect_uri r |}.

Definition set_request_token (k : option RequestToken.t) (r : t) : t :=
  {| client := client r; request_token := k;
     access_token := access_token r; redirect_uri := redirect_uri r |}.

Definition set_access_token (k : option AccessToken.t) (r : t) : t :=
  {| client := client r; request_token := request_token r;
     access_token := k; redirect_uri := redirect_uri r |}.

Definition set_redirect_uri (u : option string) (r : t) : t :=
  {| client := client r; request_token := request_token r;
     access_token := access_token r; redirect_uri := u |}.
End Request.

(** The Flask configuration dictionary, seen through the keys the code reads:
    [config.get(k)] is the field, [None] when the key is not set. *)
Record Config := {
  OAUTH1_PROVIDER_ERROR_URI : option string;
  OAUTH1_PROVIDER_ERROR_ENDPOINT : option string;
  OAUTH1_PROVIDER_SIGNATURE_METHODS : option (list string);
  OAUTH1_PROVIDER_KEY_LENGTH : option (Z * Z);
  OAUTH1_PROVIDER_REALMS : option (list string);
  OAUTH1_PROVIDER_ENFORCE_SSL : option bool
}.

Definition empty_config : Config :=
  {| OAUTH1_PROVIDER_ERROR_URI := None;
     OAUTH1_PROVIDER_ERROR_ENDPOINT := None;
     OAUTH1_PROVIDER_SIGNATURE_METHODS := None;
     OAUTH1_PROVIDER_KEY_LENGTH := None;
     OAUTH1_PROVIDER_REALMS := None;
     OAUTH1_PROVIDER_ENFORCE_SSL := None |}.

Definition SIGNATURE_HMAC : string := "HMAC-SHA1".
Definition SIGNATURE_RSA : string := "RSA-SHA1".
Definition SIGNATURE_METHODS : list string := [SIGNATURE_HMAC; SIGNATURE_RSA].

(** Keyword arguments of the nonce getter and setter. The [nonce] slot is
    dynamically typed: the code passes whatever the local variable [nonce]
    holds at the call. *)
Record nonce_kwargs := {
  nk_client_key : string;
  nk_timestamp : string;
  nk_nonce : pyval;
  nk_request_token : option string;
  nk_access_token : option string
}.

#[global] Instance nonce_kwargs_eq_dec : EqDecision nonce_kwargs.
Proof. solve_decision. Defined.

(** Keyword arguments of a call to a verifier callback; [vk_request] is
    [Some] when the call passes a [request=] keyword. *)
Record verifier_kwargs := {
  vk_verifier : string;
  vk_token : string;
  vk_request : option Request.t
}.

(** ** The request validator ([class OAuth1RequestValidator])

    Every method runs over the scratch request it is handed and the
    application's store [S], the state the registered callbacks read and
    write. The [request] parameter of the Python methods is the [request]
    component of the state. *)

Record VState (S : Type) := {
  request : Request.t;
  store : S
}.
Arguments request {S} _.
Arguments store {S} _.

Module OAuth1RequestValidator.
Section Validator.
Context {S : Type}.

#[local] Abbreviation M := (Py (VState S)).

(** The instance attributes set by [__init__]. A verifier callback that was
    not given is [None]. *)
Record t := {
  _clientgetter : string -> M (option Client.t);
  _tokengetter : string -> string -> M (option AccessToken.t);
  _tokensetter : gmap string string -> M unit;
  _grantgetter : string -> M (option RequestToken.t);
  _grantsetter : gmap string string -> M unit;
  _noncegetter : nonce_kwargs -> M pyval;
  _noncesetter : nonce_kwargs -> M pyval;
  _verifiergetter : option (verifier_kwargs -> M (option VerifierData.t));
  _verifiersetter : option (verifier_kwargs -> M pyval);
  _config : Config
}.

(** [__init__]: [config or {}] is the configuration itself, an absent one
    being the empty dictionary. *)
Definition __init__ clientgetter tokengetter tokensetter grantgetter
    grantsetter noncegetter noncesetter verifiergetter verifiersetter
    (config : option Config) : t :=
  {| _clientgetter := clientgetter;
     _tokengetter := tokengetter;
     _tokensetter := tokensetter;
     _grantgetter := grantgetter;
     _grantsetter := grantsetter;
     _noncegetter := noncegetter;
     _noncesetter := noncesetter;
     _verifiergetter := verifiergetter;
     _verifiersetter := verifiersetter;
     _config := default empty_config config |}.

Definition get_request : M Request.t :=
  fun st => (Ok (request st), st).

Definition set_request (f : Request.t -> Request.t) : M unit :=
  modify (fun st => {| request := f (request st); store := store st |}).

Definition allowed_signature_methods (self : t) : list string :=
  default SIGNATURE_METHODS (OAUTH1_PROVIDER_SIGNATURE_METHODS (_config self)).

Definition client_key_length (self : t) : Z * Z :=
  default (20, 30)%Z (OAUTH1_PROVIDER_KEY_LENGTH (_config self)).

Definition reqeust_token_length (self : t) : Z * Z :=
  default (20, 30)%Z (OAUTH1_PROVIDER_KEY_LENGTH (_config self)).

Definition access_token_length (self : t) : Z * Z :=
  default (20, 30)%Z (OAUTH1_PROVIDER_KEY_LENGTH (_config self)).

Definition nonce_length (self : t) : Z * Z :=
  default (20, 30)%Z (OAUTH1_PROVIDER_KEY_LENGTH (_config self)).

Definition verifier_length (self : t) : Z * Z :=
  default (20, 30)%Z (OAUTH1_PROVIDER_KEY_LENGTH (_config self)).

Definition realms (self : t) : list string :=
  default [] (OAUTH1_PROVIDER_REALMS (_config self)).

Definition enforce_ssl (self : t) : bool :=
  default true (OAUTH1_PROVIDER_ENFORCE_SSL (_config self)).

Definition dummy_client (self : t) : string := "dummy_client".
Definition dummy_resource_owner (self : t) : string := "dummy_resource_owner".
Definition dummy_request_token (self : t) : string := "dummy_request_token".

(** [if not request.client: request.client = self._clientgetter(...)] *)
Definition resolve_client (self : t) (client_key : string) : M unit :=
  r <- get_request ;;
  match Request.client r with
  | Some _ => ret tt
  | None =>
      c <- _clientgetter self client_key ;;
      set_request (Request.set_client c)
  end.

(** [request.request_token or self._grantgetter(token=token)] *)
Definition lookup_request_token (self : t) (token : string)
  : M (option RequestToken.t) :=
  r <- get_request ;;
  match Request.request_token r with
  | Some tok => ret (Some tok)
  | None => _grantgetter self token
  end.

(** [request.access_token or self._tokengetter(client_key=..., token=...)] *)
Definition lookup_access_token (self : t) (client_key token : string)
  : M (option AccessToken.t) :=
  r <- get_request ;;
  match Request.access_token r with
  | Some tok => ret (Some tok)
  | None => _tokengetter self client_key token
  end.

Definition get_client_secret (self : t) (client_key : string)
  : M (option string) :=
  resolve_client self client_key ;;
  r <- get_request ;;
  match Request.client r with
  | Some c => ret (Some (Client.client_secret c))
  | None => ret None
  end.

Definition get_request_token_secret (self : t) (client_key token : string)
  : M (option string) :=
  tok <- lookup_request_token self token ;;
  match tok with
  | Some k =>
      if String.eqb (RequestToken.client_key k) client_key then
        set_request (Request.set_request_token (Some k)) ;;
        ret (Some (RequestToken.secret k))
      else ret None
  | None => ret None
  end.

Definition get_access_token_secret (self : t) (client_key token : string)
  : M (option string) :=
  tok <- lookup_access_token self client_key token ;;
  match tok with
  | Some k =>
      set_request (Request.set_access_token (Some k)) ;;
      ret (Some (AccessToken.secret k))
  | None => ret None
  end.

Definition get_default_realms (self : t) (client_key : string)
  : M (list string) :=
  resolve_client self client_key ;;
  r <- get_request ;;
  let client := Request.client r in
  match client ≫= Client.default_realms with
  | Some l => ret l
  | None => ret []
  end.

Definition get_realms (self : t) (token : string) : M (list string) :=
  tok <- lookup_request_token self token ;;
  match tok with
  | None => ret []
  | Some k =>
      set_request (Request.set_request_token (Some k)) ;;
      match RequestToken.realms k with
      | Some (Some (x :: l)) => ret (x :: l)
      | Some _ => ret []
      | None => ret []
      end
  end.

Definition get_redirect_uri (self : t) (token : string)
  : M (option string) :=
  tok <- lookup_request_token self token ;;
  getattr (RequestToken.redirect_uri <$> tok).

Definition validate_client_key (self : t) (client_key : string) : M bool :=
  resolve_client self client_key ;;
  r <- get_request ;;
  match Request.client r with
  | Some _ => ret true
  | None => ret false
  end.

Definition validate_request_token (self : t) (client_key token : string)
  : M bool :=
  tok <- lookup_request_token self token ;;
  match tok with
  | Some k =>
      if String.eqb (RequestToken.client_key k) client_key then
        set_request (Request.set_request_token (Some k)) ;;
        ret true
      else ret false
  | None => ret false
  end.

Definition validate_access_token (self : t) (client_key token : string)
  : M bool :=
  tok <- lookup_access_token self client_key token ;;
  match tok with
  | Some k =>
      set_request (Request.set_access_token (Some k)) ;;
      ret true
  | None => ret false
  end.

(** The local variable [nonce] is rebound to what the getter returned; the
    setter call reads it after the rebinding. *)
Definition validate_timestamp_and_nonce (self : t)
    (client_key timestamp nonce : string)
    (request_token access_token : option string) : M bool :=
  nonce <- _noncegetter self
             {| nk_client_key := client_key; nk_timestamp := timestamp;
                nk_nonce := PyStr nonce; nk_request_token := request_token;
                nk_access_token := access_token |} ;;
  if truthy nonce then ret false
  else
    _noncesetter self
      {| nk_client_key := client_key; nk_timestamp := timestamp;
         nk_nonce := nonce; nk_request_token := request_token;
         nk_access_token := access_token |} ;;
    ret true.

Definition validate_redirect_uri (self : t) (client_key : string)
    (redirect_uri : option string) : M bool :=
  resolve_client self client_key ;;
  r <- get_request ;;
  match Request.client r with
  | None => ret false
  | Some c =>
      if bool_decide (Client.redirect_uris c = []) && bool_decide (redirect_uri = None)
      then ret true
      else
        set_request (Request.set_redirect_uri redirect_uri) ;;
        match redirect_uri with
        | Some u => ret (bool_decide (u ∈ Client.redirect_uris c))
        | None => ret false
        end
  end.

Definition validate_requested_realms (self : t) (client_key : string)
    (realms : list string) : M bool :=
  resolve_client self client_key ;;
  r <- get_request ;;
  let client := Request.client r in
  match client ≫= Client.validate_realms with
  | Some custom => ret (custom realms)
  | None =>
      defaults <- getattr (client ≫= Client.default_realms) ;;
      if issuperset (list_to_set defaults) (list_to_set realms)
      then ret true
      else ret true
  end.

Definition validate_realms (self : t) (client_key token : string)
    (uri : option string) (realms : option (list string)) : M bool :=
  r <- get_request ;;
  tok <- match Request.access_token r with
         | Some k => ret (Some k)
         | None =>
             tok <- _tokengetter self client_key token ;;
             set_request (Request.set_access_token tok) ;;
             ret tok
         end ;;
  granted <- getattr (AccessToken.realms <$> tok) ;;
  required <- pyset realms ;;
  ret (issuperset (list_to_set granted) required).

Definition validate_verifier (self : t) (client_key token verifier : string)
  : M bool :=
  match _verifiergetter self with
  | None => ret true
  | Some getter =>
      data <- getter {| vk_verifier := verifier; vk_token := token;
                        vk_request := None |} ;;
      match data with
      | None => ret false
      | Some d =>
          match VerifierData.client_key d with
          | Some k => ret (String.eqb k client_key)
          | None => ret true
          end
      end
  end.

Definition verify_request_token (self : t) (token : string) : M bool :=
  tok <- lookup_request_token self token ;;
  match tok with
  | Some k =>
      set_request (Request.set_request_token (Some k)) ;;
      ret true
  | None => ret false
  end.

Definition verify_realms (self : t) (token : string) (realms : list string)
  : M bool :=
  tok <- lookup_request_token self token ;;
  match tok with
  | None => ret false
  | Some k =>
      set_request (Request.set_request_token (Some k)) ;;
      match RequestToken.realms k with
      | None => ret true
      | Some granted =>
          a <- pyset granted ;;
          ret (bool_decide (a = list_to_set realms))
      end
  end.

Definition save_access_token (self : t) (token : gmap string string)
  : M unit :=
  _tokensetter self token.

Definition save_request_token (self : t) (token : gmap string string)
  : M unit :=
  _grantsetter self token.

(** The guard tests [self._verifiersetter]; the call goes to
    [self._verifiergetter], with a [request=] keyword. Calling [None] is a
    [TypeError]. *)
Definition save_verifier (self : t) (token verifier : string) : M unit :=
  match _verifiersetter self with
  | Some _ =>
      r <- get_request ;;
      match _verifiergetter self with
      | Some callee =>
          callee {| vk_verifier := verifier; vk_token := token;
                    vk_request := Some r |} ;;
          ret tt
      | None => raise TypeError
      end
  | None => ret tt
  end.

End Validator.
Arguments t : clear implicits.
End OAuth1RequestValidator.

(** ** The hosting side: Flask and oauthlib objects *)

(** A Flask application, as far as the provider reads it. The extension
    registry that [init_app] fills is not read back by this module and is
    left out. *)
Record App := {
  config : Config;
  testing : bool
}.

(** The global [flask.request] of the request being served. *)
Record FlaskRequest := {
  method : string;
  url : string;
  headers : list (string * string);
  form : list (string * string)
}.

(** What [_extract_params] returns: [(uri, http_method, body, headers)]. *)
Definition Params : Type :=
  string * string * list (string * string) * list (string * string).

(** oauthlib's [WebApplicationServer]. [_check_signature] is the instance
    attribute of that name: [None] while the instance has none and attribute
    lookup falls back to the method of the class. *)
Record Server (S : Type) := {
  request_validator : OAuth1RequestValidator.t S;
  _check_signature : option (PyArgs -> bool)
}.
Arguments request_validator {S} _.
Arguments _check_signature {S} _.

(** [Server(validator)] *)
Definition Server_new {S} (validator : OAuth1RequestValidator.t S) : Server S :=
  {| request_validator := validator; _check_signature := None |}.

(** Positional arguments of a view function: the resolved oauthlib request
    that [require_oauth] prepends (it is [None] when oauthlib could not even
    build one) or an ordinary value. *)
Inductive Arg :=
| ArgRequest (r : option Request.t)
| ArgValue (v : pyval).

Inductive kwval :=
| KwValue (v : pyval)
| KwRealms (l : list string).

(** What a view returns to Flask. *)
Inductive Response :=
| Redirect (location : string)
| MakeResponse (body : string) (status : Z) (hdrs : list (string * string)).

Inductive retval :=
| Value (v : pyval)
| Resp (r : Response).

Definition retval_truthy (r : retval) : bool :=
  match r with
  | Value v => truthy v
  | Resp _ => true
  end.

(** [flask.redirect] and [flask.abort]: the latter raises the HTTP exception
    that Flask turns into the response with that status. *)
Definition redirect (location : string) : Response := Redirect location.

Definition abort {St A} (code : Z) : Py St A := raise (HTTPException code).

(** ** The provider ([class OAuth1Provider]) *)

Module OAuth1Provider.
Section Provider.
Context {S : Type}.

#[local] Abbreviation V := (Py (VState S)).

(** The attributes of a provider instance. An attribute that was never
    assigned is [None], so [hasattr(self, a)] is [is_Some]. The two
    [cached_*] slots are where [cached_property] keeps a computed value. *)
Record t := {
  app : option App;
  _validator : option (OAuth1RequestValidator.t S);
  _clientgetter : option (string -> V (option Client.t));
  _tokengetter : option (string -> string -> V (option AccessToken.t));
  _tokensetter : option (gmap string string -> V unit);
  _grantgetter : option (string -> V (option RequestToken.t));
  _grantsetter : option (gmap string string -> V unit);
  _noncegetter : option (nonce_kwargs -> V pyval);
  _noncesetter : option (nonce_kwargs -> V pyval);
  _verifiergetter : option (verifier_kwargs -> V (option VerifierData.t));
  _verifiersetter : option (verifier_kwargs -> V pyval);
  cached_error_uri : option string;
  cached_server : option (Server S)
}.

(** [OAuth1Provider()] before anything is bound or registered. *)
Definition unbound : t :=
  {| app := None; _validator := None; _clientgetter := None;
     _tokengetter := None; _tokensetter := None; _grantgetter := None;
     _grantsetter := None; _noncegetter := None; _noncesetter := None;
     _verifiergetter := None; _verifiersetter := None;
     cached_error_uri := None; cached_server := None |}.

Definition set_app a (p : t) : t :=
  {| app := a; _validator := _validator p; _clientgetter := _clientgetter p;
     _tokengetter := _tokengetter p; _tokensetter := _tokensetter p;
     _grantgetter := _grantgetter p; _grantsetter := _grantsetter p;
     _noncegetter := _noncegetter p; _noncesetter := _noncesetter p;
     _verifiergetter := _verifiergetter p;
     _verifiersetter := _verifiersetter p;
     cached_error_uri := cached_error_uri p;
     cached_server := cached_server p |}.

Definition set_validator v (p : t) : t :=
  {| app := app p; _validator := v; _clientgetter := _clientgetter p;
     _tokengetter := _tokengetter p; _tokensetter := _tokensetter p;
     _grantgetter := _grantgetter p; _grantsetter := _grantsetter p;
     _noncegetter := _noncegetter p; _noncesetter := _noncesetter p;
     _verifiergetter := _verifiergetter p;
     _verifiersetter := _verifiersetter p;
     cached_error_uri := cached_error_uri p;
     cached_server := cached_server p |}.

Definition set_cached_error_uri u (p : t) : t :=
  {| app := app p; _validator := _validator p;
     _clientgetter := _clientgetter p;
     _tokengetter := _tokengetter p; _tokensetter := _tokensetter p;
     _grantgetter := _grantgetter p; _grantsetter := _grantsetter p;
     _noncegetter := _noncegetter p; _noncesetter := _noncesetter p;
     _verifiergetter := _verifiergetter p;
     _verifiersetter := _verifiersetter p;
     cached_error_uri := u;
     cached_server := cached_server p |}.

Definition set_cached_server s (p : t) : t :=
  {| app := app p; _validator := _validator p;
     _clientgetter := _clientgetter p;
     _tokengetter := _tokengetter p; _tokensetter := _tokensetter p;
     _grantgetter := _grantgetter p; _grantsetter := _grantsetter p;
     _noncegetter := _noncegetter p; _noncesetter := _noncesetter p;
     _verifiergetter := _verifiergetter p;
     _verifiersetter := _verifiersetter p;
     cached_error_uri := cached_error_uri p;
     cached_server := s |}.

(** [__init__] and [init_app]. *)
Definition init_app (a : App) (self : t) : t := set_app (Some a) self.

Definition __init__ (a : option App) : t :=
  match a with
  | Some a => init_app a unbound
  | None => unbound
  end.

(** The registration decorators. *)
Definition clientgetter f (p : t) : t :=
  {| app := app p; _validator := _validator p; _clientgetter := Some f;
     _tokengetter := _tokengetter p; _tokensetter := _tokensetter p;
     _grantgetter := _grantgetter p; _grantsetter := _grantsetter p;
     _noncegetter := _noncegetter p; _noncesetter := _noncesetter p;
     _verifiergetter := _verifiergetter p;
     _verifiersetter := _verifiersetter p;
     cached_error_uri := cached_error_uri p;
     cached_server := cached_server p |}.

Definition tokengetter f (p : t) : t :=
  {| app := app p; _validator := _validator p;
     _clientgetter := _clientgetter p;
     _tokengetter := Some f; _tokensetter := _tokensetter p;
     _grantgetter := _grantgetter p; _grantsetter := _grantsetter p;
     _noncegetter := _noncegetter p; _noncesetter := _noncesetter p;
     _verifiergetter := _verifiergetter p;
     _verifiersetter := _verifiersetter p;
     cached_error_uri := cached_error_uri p;
     cached_server := cached_server p |}.

Definition tokensetter f (p : t) : t :=
  {| app := app p; _validator := _validator p;
     _clientgetter := _clientgetter p;
     _tokengetter := _tokengetter p; _tokensetter := Some f;
     _grantgetter := _grantgetter p; _grantsetter := _grantsetter p;
     _noncegetter := _noncegetter p; _noncesetter := _noncesetter p;
     _verifiergetter := _verifiergetter p;
     _verifiersetter := _verifiersetter p;
     cached_error_uri := cached_error_uri p;
     cached_server := cached_server p |}.

Definition grantgetter f (p : t) : t :=
  {| app := app p; _validator := _validator p;
     _clientgetter := _clientgetter p;
     _tokengetter := _tokengetter p; _tokensetter := _tokensetter p;
     _grantgetter := Some f; _grantsetter := _grantsetter p;
     _noncegetter := _noncegetter p; _noncesetter := _noncesetter p;
     _verifiergetter := _verifiergetter p;
     _verifiersetter := _verifiersetter p;
     cached_error_uri := cached_error_uri p;
     cached_server := cached_server p |}.

Definition grantsetter f (p : t) : t :=
  {| app := app p; _validator := _validator p;
     _clientgetter := _clientgetter p;
     _tokengetter := _tokengetter p; _tokensetter := _tokensetter p;
     _grantgetter := _grantgetter p; _grantsetter := Some f;
     _noncegetter := _noncegetter p; _noncesetter := _noncesetter p;
     _verifiergetter := _verifiergetter p;
     _verifiersetter := _verifiersetter p;
     cached_error_uri := cached_error_uri p;
     cached_server := cached_server p |}.

Definition noncegetter f (p : t) : t :=
  {| app := app p; _validator := _validator p;
     _clientgetter := _clientgetter p;
     _tokengetter := _tokengetter p; _tokensetter := _tokensetter p;
     _grantgetter := _grantgetter p; _grantsetter := _grantsetter p;
     _noncegetter := Some f; _noncesetter := _noncesetter p;
     _verifiergetter := _verifiergetter p;
     _verifiersetter := _verifiersetter p;
     cached_error_uri := cached_error_uri p;
     cached_server := cached_server p |}.

Definition noncesetter f (p : t) : t :=
  {| app := app p; _validator := _validator p;
     _clientgetter := _clientgetter p;
     _tokengetter := _tokengetter p; _tokensetter := _tokensetter p;
     _grantgetter := _grantgetter p; _grantsetter := _grantsetter p;
     _noncegetter := _noncegetter p; _noncesetter := Some f;
     _verifiergetter := _verifiergetter p;
     _verifiersetter := _verifiersetter p;
     cached_error_uri := cached_error_uri p;
     cached_server := cached_server p |}.

Definition verifiergetter f (p : t) : t :=
  {| app := app p; _validator := _validator p;
     _clientgetter := _clientgetter p;
     _tokengetter := _tokengetter p; _tokensetter := _tokensetter p;
     _grantgetter := _grantgetter p; _grantsetter := _grantsetter p;
     _noncegetter := _noncegetter p; _noncesetter := _noncesetter p;
     _verifiergetter := Some f;
     _verifiersetter := _verifiersetter p;
     cached_error_uri := cached_error_uri p;
     cached_server := cached_server p |}.

Definition verifiersetter f (p : t) : t :=
  {| app := app p; _validator := _validator p;
     _clientgetter := _clientgetter p;
     _tokengetter := _tokengetter p; _tokensetter := _tokensetter p;
     _grantgetter := _grantgetter p; _grantsetter := _grantsetter p;
     _noncegetter := _noncegetter p; _noncesetter := _noncesetter p;
     _verifiergetter := _verifiergetter p;
     _verifiersetter := Some f;
     cached_error_uri := cached_error_uri p;
     cached_server := cached_server p |}.

(** The state a view runs in: the provider instance, the Flask request
    being served, and the application's store. *)
Record PState := {
  self : t;
  flask_request : FlaskRequest;
  pstore : S
}.

Definition update_self (f : t -> t) (st : PState) : PState :=
  {| self := f (self st); flask_request := flask_request st;
     pstore := pstore st |}.

#[local] Abbreviation P := (Py PState).

Definition get_self : P t := fun st => (Ok (self st), st).

(** werkzeug's [cached_property]: the body runs when the slot is empty, and
    a value it returns is kept in the slot; an exception leaves it empty. *)
Definition cached_property {A} (slot : t -> option A)
    (fill : option A -> t -> t) (body : P A) : P A :=
  p <- get_self ;;
  match slot p with
  | Some v => ret v
  | None =>
      v <- body ;;
      modify (update_self (fill (Some v))) ;;
      ret v
  end.

(** The seven [hasattr] tests of [server]. *)
Definition required_registered (p : t) : bool :=
  bool_decide (is_Some (_clientgetter p)) &&
  bool_decide (is_Some (_tokengetter p)) &&
  bool_decide (is_Some (_tokensetter p)) &&
  bool_decide (is_Some (_noncegetter p)) &&
  bool_decide (is_Some (_noncesetter p)) &&
  bool_decide (is_Some (_grantgetter p)) &&
  bool_decide (is_Some (_grantsetter p)).

(** The body of the [server] property. *)
Definition server : P (Server S) :=
  p <- get_self ;;
  match _validator p with
  | Some v => ret (Server_new v)
  | None =>
      match _clientgetter p, _tokengetter p, _tokensetter p,
            _noncegetter p, _noncesetter p, _grantgetter p, _grantsetter p
      with
      | Some cg, Some tg, Some ts, Some ng, Some ns, Some gg, Some gs =>
          let verifiergetter := _verifiergetter p in
          let verifiersetter := _verifiersetter p in
          a <- getattr (app p) ;;
          let validator :=
            OAuth1RequestValidator.__init__ cg tg ts gg gs ng ns
              verifiergetter verifiersetter (Some (config a)) in
          modify (update_self (set_validator (Some validator))) ;;
          let server := Server_new validator in
          if testing a then
            ret {| request_validator := request_validator server;
                   _check_signature := Some (fun _ => true) |}
          else ret server
      | _, _, _, _, _, _, _ => raise RuntimeError
      end
  end.

(** [self.server] *)
Definition self_server : P (Server S) :=
  cached_property cached_server set_cached_server server.

(** What the views call outside this module: Flask's [url_for], oauthlib's
    URI helpers and server endpoints, and [_extract_params] of
    [flask_oauthlib._utils], which reads the Flask request. The endpoints
    run the validator over the store, so they act on the whole state. *)
Class Externals := {
  url_for : string -> string;
  add_params_to_uri : string -> list (string * string) -> string;
  in_uri : oauth1_error -> string -> string;
  _extract_params : P Params;
  get_realms_and_credentials :
    Server S -> Params -> P (list string * gmap string string);
  create_authorization_response :
    Server S -> Params -> list string -> gmap string string ->
    P (string * list (string * string) * option string * Z);
  create_request_token_response :
    Server S -> Params -> option (gmap string string) ->
    P (option string * list (string * string) * option string * Z);
  create_access_token_response :
    Server S -> Params -> option (gmap string string) ->
    P (option string * list (string * string) * option string * Z);
  validate_protected_resource_request :
    Server S -> Params -> list string -> P (bool * option Request.t)
}.

Context `{!Externals}.

(** A view function, called with positional and keyword arguments. *)
Definition Handler (R : Type) : Type :=
  list Arg -> gmap string kwval -> P R.

(** [config.get(key)] followed by a truth test: an empty string is falsy. *)
Definition truthy_entry (o : option string) : option string :=
  match o with
  | Some u => if String.eqb u "" then None else Some u
  | None => None
  end.

(** The body of the [error_uri] property. *)
Definition error_uri : P string :=
  p <- get_self ;;
  a <- getattr (app p) ;;
  match truthy_entry (OAUTH1_PROVIDER_ERROR_URI (config a)) with
  | Some error_uri => ret error_uri
  | None =>
      match truthy_entry (OAUTH1_PROVIDER_ERROR_ENDPOINT (config a)) with
      | Some error_endpoint => ret (url_for error_endpoint)
      | None => ret "/oauth/errors"
      end
  end.

(** [self.error_uri] *)
Definition self_error_uri : P string :=
  cached_property cached_error_uri set_cached_error_uri error_uri.

Definition confirm_authorization_request : P retval :=
  server <- self_server ;;
  params <- _extract_params ;;
  rc <- get_realms_and_credentials server params ;;
  let '(realms, credentials) := rc in
  try_except
    (r <- create_authorization_response server params realms credentials ;;
     let '(uri, _, _, _) := r in
     ret (Resp (redirect uri)))
    (fun e =>
       base <- self_error_uri ;;
       ret (Resp (redirect (in_uri e base)))).

Definition authorize_handler (f : Handler retval) : Handler retval :=
  fun args kwargs =>
    st <- get ;;
    if String.eqb (method (flask_request st)) "POST" then
      decision <- f args kwargs ;;
      if negb (retval_truthy decision) then
        base <- self_error_uri ;;
        let uri := add_params_to_uri base [("error", "denied")] in
        ret (Resp (redirect uri))
      else confirm_authorization_request
    else
      server <- self_server ;;
      params <- _extract_params ;;
      rc <- get_realms_and_credentials server params ;;
      let '(realms, credentials) := rc in
      let kwargs := <["realms" := KwRealms realms]> kwargs in
      let kwargs := ((fun v => KwValue (PyStr v)) <$> credentials) ∪ kwargs in
      f args kwargs.

Definition _error_response (e : oauth1_error) : Response :=
  MakeResponse (urlencoded e) (status_code e)
    [("Content-Type", "application/x-www-form-urlencoded")].

Definition request_token_handler (f : Handler (option (gmap string string)))
  : Handler Response :=
  fun args kwargs =>
    server <- self_server ;;
    params <- _extract_params ;;
    credentials <- f args kwargs ;;
    try_except
      (r <- create_request_token_response server params credentials ;;
       let '(_, hdrs, body, status) := r in
       ret (MakeResponse (default "" body) status hdrs))
      (fun e => ret (_error_response e)).

Definition access_token_handler (f : Handler (option (gmap string string)))
  : Handler Response :=
  fun args kwargs =>
    server <- self_server ;;
    params <- _extract_params ;;
    credentials <- f args kwargs ;;
    try_except
      (r <- create_access_token_response server params credentials ;;
       let '(_, hdrs, body, status) := r in
       ret (MakeResponse (default "" body) status hdrs))
      (fun e => ret (_error_response e)).

Definition require_oauth {R} (realms : list string) (f : Handler R)
  : Handler R :=
  fun args kwargs =>
    server <- self_server ;;
    params <- _extract_params ;;
    vr <- validate_protected_resource_request server params realms ;;
    let '(valid, req) := vr in
    if negb valid then abort 403
    else f (ArgRequest req :: args) kwargs.

End Provider.
Arguments t : clear implicits.
Arguments PState : clear implicits.
Arguments Externals : clear implicits.
Arguments Handler : clear implicits.
End OAuth1Provider.

(** ** An in-memory store

    A dictionary-backed application of the kind the callbacks are written
    for: each getter looks its keyword arguments up, each setter records
    them. It is the concrete instance the general statements below are run
    on. *)

Module MemoryStore.

Record t := {
  clients : gmap string Client.t;
  grants : gmap string RequestToken.t;
  tokens : gmap (string * string) AccessToken.t;
  nonces : list nonce_kwargs;
  verifiers : gmap (string * string) VerifierData.t
}.

Definition empty : t :=
  {| clients := ∅; grants := ∅; tokens := ∅; nonces := [];
     verifiers := ∅ |}.

#[local] Abbreviation M := (Py (VState t)).

Definition reads {A} (f : t -> A) : M A :=
  fun st => (Ok (f (store st)), st).

Definition writes (f : t -> t) : M unit :=
  modify (fun st => {| request := request st; store := f (store st) |}).

Definition get_client (client_key : string) : M (option Client.t) :=
  reads (fun s => clients s !! client_key).

Definition get_access_token (client_key token : string)
  : M (option AccessToken.t) :=
  reads (fun s => tokens s !! (client_key, token)).

Definition get_request_token (token : string) : M (option RequestToken.t) :=
  reads (fun s => grants s !! token).

(** Token credentials arrive as a dictionary; this store does not need
    them for what follows and keeps its tables as they are. *)
Definition save_access_token (token : gmap string string) : M unit :=
  ret tt.

Definition save_request_token (token : gmap string string) : M unit :=
  ret tt.

(** The nonce record found for exactly these keyword arguments, [None] when
    there is none. *)
Definition get_nonce (kw : nonce_kwargs) : M pyval :=
  reads (fun s =>
    match list_find (fun k => k = kw) (nonces s) with
    | Some (i, _) => PyObj i
    | None => PyNone
    end).

Definition save_nonce (kw : nonce_kwargs) : M pyval :=
  writes (fun s =>
    {| clients := clients s; grants := grants s; tokens := tokens s;
       nonces := nonces s ++ [kw]; verifiers := verifiers s |}) ;;
  ret PyNone.

(** [def get_verifier(verifier, token)]: a [request=] keyword is not part
    of its signature. *)
Definition get_verifier (kw : verifier_kwargs) : M (option VerifierData.t) :=
  match vk_request kw with
  | Some _ => raise TypeError
  | None => reads (fun s => verifiers s !! (vk_verifier kw, vk_token kw))
  end.

(** [def save_verifier(token, verifier, request)]: binds the verifier to the
    client of the request. *)
Definition save_verifier (kw : verifier_kwargs) : M pyval :=
  match vk_request kw with
  | None => raise TypeError
  | Some r =>
      writes (fun s =>
        {| clients := clients s; grants := grants s; tokens := tokens s;
           nonces := nonces s;
           verifiers :=
             <[(vk_verifier kw, vk_token kw) :=
                 {| VerifierData.client_key :=
                      Client.client_key <$> Request.client r |}]>
               (verifiers s) |}) ;;
      ret PyNone
  end.

(** The validator over this store, with and without verifier callbacks. *)
Definition validator : OAuth1RequestValidator.t t :=
  OAuth1RequestValidator.__init__ get_client get_access_token
    save_access_token get_request_token save_request_token
    get_nonce save_nonce (Some get_verifier) (Some save_verifier) None.

Definition validator_without_verifier : OAuth1RequestValidator.t t :=
  OAuth1RequestValidator.__init__ get_client get_access_token
    save_access_token get_request_token save_request_token
    get_nonce save_nonce None None None.

Definition fresh : VState t :=
  {| request := Request.empty; store := empty |}.

(** A client with default realms and no realm check of its own, and a
    token issued to it. *)
Definition client1 : Client.t :=
  {| Client.client_key := "ck1"; Client.client_secret := "cs1";
     Client.redirect_uris := ["https://client.example/cb"];
     Client.default_realms := Some ["email"];
     Client.validate_realms := None |}.

Definition token1 : AccessToken.t :=
  {| AccessToken.secret := "ts1"; AccessToken.realms := ["email"; "address"] |}.

Definition populated : VState t :=
  {| request := Request.empty;
     store :=
       {| clients := {["ck1" := client1]}; grants := ∅;
          tokens := {[("ck1", "at1") := token1]}; nonces := [];
          verifiers := ∅ |} |}.

(** A provider with every required callback registered on a testing
    application, one with nothing registered, and one with nothing
    registered but a validator assigned beforehand. *)
Definition testing_app : App := {| config := empty_config; testing := true |}.

Definition registered : OAuth1Provider.t t :=
  OAuth1Provider.noncesetter save_nonce
    (OAuth1Provider.noncegetter get_nonce
      (OAuth1Provider.grantsetter save_request_token
        (OAuth1Provider.grantgetter get_request_token
          (OAuth1Provider.tokensetter save_access_token
            (OAuth1Provider.tokengetter get_access_token
              (OAuth1Provider.clientgetter get_client
                (OAuth1Provider.__init__ (Some testing_app)))))))).

Definition unregistered : OAuth1Provider.t t :=
  OAuth1Provider.__init__ (Some testing_app).

Definition preassigned : OAuth1Provider.t t :=
  OAuth1Provider.set_validator (Some validator) unregistered.

Definition serving (p : OAuth1Provider.t t) (http_method : string)
  : OAuth1Provider.PState t :=
  {| OAuth1Provider.self := p;
     OAuth1Provider.flask_request :=
       {| method := http_method; url := "https://provider.example/";
          headers := []; form := [] |};
     OAuth1Provider.pstore := empty |}.

(** Stand-ins for Flask and oauthlib: URI helpers that append a query
    string, and endpoints that accept exactly the requests carrying an
    [Authorization] header. *)
Definition query_string (params : list (string * string)) : string :=
  String.concat "&" (map (fun kv => fst kv ++ "=" ++ snd kv) params).

Definition has_authorization (params : Params) : bool :=
  let '(_, _, _, hdrs) := params in
  bool_decide ("Authorization" ∈ map fst hdrs).

#[global] Instance externals : OAuth1Provider.Externals t := {|
  OAuth1Provider.url_for := fun endpoint => "/" ++ endpoint;
  OAuth1Provider.add_params_to_uri :=
    fun uri params => uri ++ "?" ++ query_string params;
  OAuth1Provider.in_uri :=
    fun e uri => uri ++ "?" ++ query_string [("error", error e)];
  OAuth1Provider._extract_params :=
    fun st =>
      let r := OAuth1Provider.flask_request st in
      (Ok (url r, method r, form r, headers r), st);
  OAuth1Provider.get_realms_and_credentials :=
    fun _ _ => ret ([], ∅);
  OAuth1Provider.create_authorization_response :=
    fun _ _ _ _ => ret ("https://client.example/cb", [], None, 302%Z);
  OAuth1Provider.create_request_token_response :=
    fun _ _ _ => ret (None, [], None, 200%Z);
  OAuth1Provider.create_access_token_response :=
    fun _ _ _ => ret (None, [], None, 200%Z);
  OAuth1Provider.validate_protected_resource_request :=
    fun _ params _ => ret (has_authorization params, Some Request.empty)
|}.

(** A view that records that it ran by answering, and an authorization
    view that denies. *)
Definition resource_view : OAuth1Provider.Handler t retval :=
  fun _ _ => ret (Value (PyStr "resource")).

Definition denying_view : OAuth1Provider.Handler t retval :=
  fun _ _ => ret (Value (PyBool false)).

(** A client that checks requested realms itself, request tokens with
    realms, without the attribute and with the attribute unset, and a store
    holding them. *)
Definition client2 : Client.t :=
  {| Client.client_key := "ck2"; Client.client_secret := "cs2";
     Client.redirect_uris := [];
     Client.default_realms := None;
     Client.validate_realms :=
       Some (fun requested => forallb (String.eqb "email") requested) |}.

Definition grant1 : RequestToken.t :=
  {| RequestToken.client_key := "ck1"; RequestToken.secret := "rs1";
     RequestToken.redirect_uri := Some "https://client.example/cb";
     RequestToken.realms := Some (Some ["email"; "address"]) |}.

Definition grant_without_realms : RequestToken.t :=
  {| RequestToken.client_key := "ck1"; RequestToken.secret := "rs2";
     RequestToken.redirect_uri := None;
     RequestToken.realms := None |}.

Definition grant_with_unset_realms : RequestToken.t :=
  {| RequestToken.client_key := "ck1"; RequestToken.secret := "rs3";
     RequestToken.redirect_uri := None;
     RequestToken.realms := Some None |}.

Definition granting : VState t :=
  {| request := Request.empty;
     store :=
       {| clients := <["ck2" := client2]> {["ck1" := client1]};
          grants :=
            <["rt3" := grant_with_unset_realms]>
              (<["rt2" := grant_without_realms]> {["rt1" := grant1]});
          tokens := {[("ck1", "at1") := token1]}; nonces := [];
          verifiers := ∅ |} |}.

(** Endpoints that turn every request down with an [OAuth1Error], and ones
    that hit a fault of another kind on the way. *)
Definition invalid_request : oauth1_error :=
  {| error := "invalid_request"; status_code := 400;
     urlencoded := "error=invalid_request" |}.

Definition rejecting : OAuth1Provider.Externals t := {|
  OAuth1Provider.url_for := fun endpoint => "/" ++ endpoint;
  OAuth1Provider.add_params_to_uri :=
    fun uri params => uri ++ "?" ++ query_string params;
  OAuth1Provider.in_uri :=
    fun e uri => uri ++ "?" ++ query_string [("error", error e)];
  OAuth1Provider._extract_params :=
    fun st =>
      let r := OAuth1Provider.flask_request st in
      (Ok (url r, method r, form r, headers r), st);
  OAuth1Provider.get_realms_and_credentials :=
    fun _ _ => ret (["email"], {["resource_owner_key" := "rt1"]});
  OAuth1Provider.create_authorization_response :=
    fun _ _ _ _ => raise (OAuth1Error invalid_request);
  OAuth1Provider.create_request_token_response :=
    fun _ _ _ => raise (OAuth1Error invalid_request);
  OAuth1Provider.create_access_token_response :=
    fun _ _ _ => raise (OAuth1Error invalid_request);
  OAuth1Provider.validate_protected_resource_request :=
    fun _ _ _ => ret (false, None)
|}.

Definition faulting : OAuth1Provider.Externals t := {|
  OAuth1Provider.url_for := fun endpoint => "/" ++ endpoint;
  OAuth1Provider.add_params_to_uri :=
    fun uri params => uri ++ "?" ++ query_string params;
  OAuth1Provider.in_uri :=
    fun e uri => uri ++ "?" ++ query_string [("error", error e)];
  OAuth1Provider._extract_params :=
    fun st =>
      let r := OAuth1Provider.flask_request st in
      (Ok (url r, method r, form r, headers r), st);
  OAuth1Provider.get_realms_and_credentials :=
    fun _ _ => raise (OAuth1Error invalid_request);
  OAuth1Provider.create_authorization_response :=
    fun _ _ _ _ => raise AttributeError;
  OAuth1Provider.create_request_token_response :=
    fun _ _ _ => raise AttributeError;
  OAuth1Provider.create_access_token_response :=
    fun _ _ _ => raise AttributeError;
  OAuth1Provider.validate_protected_resource_request :=
    fun _ _ _ => raise AttributeError
|}.

(** Views that hand credentials to the token endpoints, one that returns
    and one that raises. *)
Definition credentials_view
  : OAuth1Provider.Handler t (option (gmap string string)) :=
  fun _ _ => ret None.

Definition raising_view
  : OAuth1Provider.Handler t (option (gmap string string)) :=
  fun _ _ => raise (OAuth1Error invalid_request).

(** A view that answers with the keyword arguments it was given. *)
Definition realms_view : OAuth1Provider.Handler t retval :=
  fun _ kwargs =>
    match kwargs !! "realms" with
    | Some (KwRealms l) => ret (Value (PyStr (String.concat " " l)))
    | Some (KwValue v) => ret (Value v)
    | None => ret (Value PyNone)
    end.

(** An application outside testing mode with an error page configured. *)
Definition production_app : App :=
  {| config :=
       {| OAUTH1_PROVIDER_ERROR_URI := Some "";
          OAUTH1_PROVIDER_ERROR_ENDPOINT := Some "oauth.error";
          OAUTH1_PROVIDER_SIGNATURE_METHODS := None;
          OAUTH1_PROVIDER_KEY_LENGTH := None;
          OAUTH1_PROVIDER_REALMS := None;
          OAUTH1_PROVIDER_ENFORCE_SSL := None |};
     testing := false |}.

End MemoryStore.

(** ** The nonce tracker as the specification words it

    Following the specification (section 4.2): on first sight of a composite
    key, record it and accept; on repeat, reject. This is the behaviour the
    nonce callbacks are documented for, with the presented key handed
    unchanged to both. *)
Definition check {S} (self : OAuth1RequestValidator.t S)
    (client_key timestamp nonce : string)
    (request_token access_token : option string) : Py (VState S) bool :=
  let key :=
    {| nk_client_key := client_key; nk_timestamp := timestamp;
       nk_nonce := PyStr nonce; nk_request_token := request_token;
       nk_access_token := access_token |} in
  seen <- OAuth1RequestValidator._noncegetter self key ;;
  if truthy seen then ret false
  else OAuth1RequestValidator._noncesetter self key ;; ret true.

(** The access token of a protected-resource call is resolved to [tok],
    leaving the state [st']: it is already on the request, or the token
    getter finds it and it is put on the request. *)
Definition resolves_access_token {S} (self : OAuth1RequestValidator.t S)
    (client_key token : string) (st : VState S) (tok : AccessToken.t)
    (st' : VState S) : Prop :=
  match Request.access_token (request st) with
  | Some k => k = tok /\ st' = st
  | None =>
      exists st1,
        OAuth1RequestValidator._tokengetter self client_key token st
          = (Ok (Some tok), st1) /\
        st' = {| request := Request.set_access_token (Some tok) (request st1);
                 store := store st1 |}
  end.

(** The client of a request-token call is resolved to [c], leaving the
    state [st']. *)
Definition resolves_client {S} (self : OAuth1RequestValidator.t S)
    (client_key : string) (st : VState S) (c : Client.t) (st' : VState S)
  : Prop :=
  match Request.client (request st) with
  | Some k => k = c /\ st' = st
  | None =>
      exists st1,
        OAuth1RequestValidator._clientgetter self client_key st
          = (Ok (Some c), st1) /\
        st' = {| request := Request.set_client (Some c) (request st1);
                 store := store st1 |}
  end.

(** The three claims that the code does not meet as they are worded, as
    statements about it. *)

(** [validate_verifier] answers true only for a stored record of the pair
    that is bound to the requesting client. *)
Definition verifier_always_bound (S : Type) : Prop :=
  forall (self : OAuth1RequestValidator.t S) client_key token verifier
         (st st' : VState S),
    OAuth1RequestValidator.validate_verifier self client_key token verifier st
      = (Ok true, st') ->
    exists getter data,
      OAuth1RequestValidator._verifiergetter self = Some getter /\
      getter {| vk_verifier := verifier; vk_token := token;
                vk_request := None |} st = (Ok (Some data), st') /\
      VerifierData.client_key data = Some client_key.

(** Building the server raises whenever one of the seven required callbacks
    is not registered. *)
Definition server_always_refuses (S : Type) : Prop :=
  forall st : OAuth1Provider.PState S,
    OAuth1Provider.required_registered (OAuth1Provider.self st) = false ->
    exists e st', OAuth1Provider.server st = (Raise e, st').

(** On a testing application, the server that is built has its signature
    check replaced by a function that is true everywhere. *)
Definition testing_always_overrides (S : Type) : Prop :=
  forall (st st' : OAuth1Provider.PState S) a srv,
    OAuth1Provider.app (OAuth1Provider.self st) = Some a ->
    testing a = true ->
    OAuth1Provider.server st = (Ok srv, st') ->
    exists f, _check_signature srv = Some f /\ forall args, f args = true.

(** * Properties *)

(** ** Replay protection *)

Section NonceFacts.
Context {S : Type}.
Implicit Types (self : OAuth1RequestValidator.t S) (st : VState S).

(** What the method does when the getter finds nothing: the setter is
    called with the getter's answer in the [nonce] slot. *)
Lemma validate_timestamp_and_nonce_unseen self ck ts n rt at_ st r st1 :
  OAuth1RequestValidator._noncegetter self
    {| nk_client_key := ck; nk_timestamp := ts; nk_nonce := PyStr n;
       nk_request_token := rt; nk_access_token := at_ |} st = (Ok r, st1) ->
  truthy r = false ->
  OAuth1RequestValidator.validate_timestamp_and_nonce self ck ts n rt at_ st
  = match OAuth1RequestValidator._noncesetter self
            {| nk_client_key := ck; nk_timestamp := ts; nk_nonce := r;
               nk_request_token := rt; nk_access_token := at_ |} st1 with
    | (Ok _, st2) => (Ok true, st2)
    | (Raise e, st2) => (Raise e, st2)
    end.
Proof.
  intros Hget Hfalsy.
  unfold OAuth1RequestValidator.validate_timestamp_and_nonce, bind.
  rewrite Hget, Hfalsy. reflexivity.
Qed.

Lemma validate_timestamp_and_nonce_seen self ck ts n rt at_ st r st1 :
  OAuth1RequestValidator._noncegetter self
    {| nk_client_key := ck; nk_timestamp := ts; nk_nonce := PyStr n;
       nk_request_token := rt; nk_access_token := at_ |} st = (Ok r, st1) ->
  truthy r = true ->
  OAuth1RequestValidator.validate_timestamp_and_nonce self ck ts n rt at_ st
  = (Ok false, st1).
Proof.
  intros Hget Htruthy.
  unfold OAuth1RequestValidator.validate_timestamp_and_nonce, bind.
  rewrite Hget, Htruthy. reflexivity.
Qed.

End NonceFacts.

(** The store is not at fault: with the presented key handed to the
    setter, the in-memory store rejects the second presentation. *)
Lemma check_rejects_replay :
  exists st1 st2,
    check MemoryStore.validator "ck1" "1700000000" "n1" None (Some "at1")
      MemoryStore.fresh = (Ok true, st1) /\
    check MemoryStore.validator "ck1" "1700000000" "n1" None (Some "at1")
      st1 = (Ok false, st2).
Proof. do 2 eexists. split; vm_compute; reflexivity. Qed.

(** C1. The claim: the first presentation of a composite key is accepted and
    that exact key is recorded, so that its second presentation is rejected.
    The code, on the in-memory store: the first presentation of
    ("ck1", "1700000000", "n1", no request token, "at1") is accepted, the
    key recorded has [None] in its nonce slot, not "n1", and the second
    presentation of the same key is accepted again. *)
Theorem validate_timestamp_and_nonce_accepts_replay :
  exists st1 st2,
    OAuth1RequestValidator.validate_timestamp_and_nonce MemoryStore.validator
      "ck1" "1700000000" "n1" None (Some "at1") MemoryStore.fresh
      = (Ok true, st1) /\
    MemoryStore.nonces (store st1)
      = [ {| nk_client_key := "ck1"; nk_timestamp := "1700000000";
             nk_nonce := PyNone; nk_request_token := None;
             nk_access_token := Some "at1" |} ] /\
    OAuth1RequestValidator.validate_timestamp_and_nonce MemoryStore.validator
      "ck1" "1700000000" "n1" None (Some "at1") st1
      = (Ok true, st2).
Proof. do 2 eexists. repeat split; vm_compute; reflexivity. Qed.

(** ** Realms *)

Lemma issuperset_spec (granted required : list string) :
  issuperset (list_to_set granted) (list_to_set required) = true <->
  (forall r, r ∈ required -> r ∈ granted).
Proof.
  unfold issuperset. rewrite bool_decide_eq_true. split.
  - intros Hsub r Hr.
    apply (elem_of_list_to_set (C := gset string)).
    apply Hsub. by apply elem_of_list_to_set.
  - intros Hall r Hr.
    apply elem_of_list_to_set. apply Hall.
    by apply (elem_of_list_to_set (C := gset string)).
Qed.

Section RealmFacts.
Context {S : Type}.
Implicit Types (self : OAuth1RequestValidator.t S) (st : VState S).

(** The value of [validate_realms] once the token is resolved. *)
Lemma validate_realms_resolved self ck token uri required st tok st' :
  resolves_access_token self ck token st tok st' ->
  OAuth1RequestValidator.validate_realms self ck token uri (Some required) st
  = (Ok (issuperset (list_to_set (AccessToken.realms tok))
                    (list_to_set required)), st').
Proof.
  unfold resolves_access_token,
    OAuth1RequestValidator.validate_realms,
    OAuth1RequestValidator.get_request,
    OAuth1RequestValidator.set_request, bind, modify, ret.
  destruct (Request.access_token (request st)) as [k|] eqn:Hreq.
  - intros [-> ->]. reflexivity.
  - intros (st1 & Hget & ->). rewrite Hget. reflexivity.
Qed.

(** C2. Once the access token of a protected-resource call is resolved,
    [validate_realms] returns a verdict, and the verdict is true exactly
    when every required realm is among the token's realms: a superset test
    on sets, blind to order and repetition. *)
Theorem validate_realms_iff_superset self ck token uri required st tok st' :
  resolves_access_token self ck token st tok st' ->
  exists verdict,
    OAuth1RequestValidator.validate_realms self ck token uri (Some required) st
      = (Ok verdict, st') /\
    (verdict = true <->
     forall r, r ∈ required -> r ∈ AccessToken.realms tok).
Proof.
  intros Hres. eexists. split.
  - exact (validate_realms_resolved self ck token uri required st tok st' Hres).
  - apply issuperset_spec.
Qed.

(** The verdict depends on the two realm lists only through their sets. *)
Lemma validate_realms_set_semantics self ck token uri st tok st'
    (required required' : list string) :
  resolves_access_token self ck token st tok st' ->
  (forall r, r ∈ required <-> r ∈ required') ->
  OAuth1RequestValidator.validate_realms self ck token uri (Some required) st
  = OAuth1RequestValidator.validate_realms self ck token uri (Some required') st.
Proof.
  intros Hres Hsame.
  rewrite !(validate_realms_resolved _ _ _ _ _ _ _ _ Hres).
  f_equal. f_equal.
  apply eq_true_iff_eq. rewrite !issuperset_spec.
  split; intros H r Hr; apply H, Hsame, Hr.
Qed.

(** With no token to be found, [validate_realms] dereferences [None]. *)
Lemma validate_realms_absent self ck token uri realms_ st st1 :
  Request.access_token (request st) = None ->
  OAuth1RequestValidator._tokengetter self ck token st = (Ok None, st1) ->
  OAuth1RequestValidator.validate_realms self ck token uri realms_ st
  = (Raise AttributeError,
     {| request := Request.set_access_token None (request st1);
        store := store st1 |}).
Proof.
  intros Hreq Hget.
  unfold OAuth1RequestValidator.validate_realms,
    OAuth1RequestValidator.get_request,
    OAuth1RequestValidator.set_request, bind, modify, ret.
  rewrite Hreq, Hget. reflexivity.
Qed.

(** So does [get_redirect_uri]. *)
Lemma get_redirect_uri_absent self token st st1 :
  Request.request_token (request st) = None ->
  OAuth1RequestValidator._grantgetter self token st = (Ok None, st1) ->
  OAuth1RequestValidator.get_redirect_uri self token st
  = (Raise AttributeError, st1).
Proof.
  intros Hreq Hget.
  unfold OAuth1RequestValidator.get_redirect_uri,
    OAuth1RequestValidator.lookup_request_token,
    OAuth1RequestValidator.get_request, bind, ret.
  rewrite Hreq, Hget. reflexivity.
Qed.

(** The sibling methods guard the same lookup. *)
Lemma get_realms_absent self token st st1 :
  Request.request_token (request st) = None ->
  OAuth1RequestValidator._grantgetter self token st = (Ok None, st1) ->
  OAuth1RequestValidator.get_realms self token st = (Ok [], st1).
Proof.
  intros Hreq Hget.
  unfold OAuth1RequestValidator.get_realms,
    OAuth1RequestValidator.lookup_request_token,
    OAuth1RequestValidator.get_request, bind, ret.
  rewrite Hreq, Hget. reflexivity.
Qed.

Lemma verify_realms_absent self token realms_ st st1 :
  Request.request_token (request st) = None ->
  OAuth1RequestValidator._grantgetter self token st = (Ok None, st1) ->
  OAuth1RequestValidator.verify_realms self token realms_ st = (Ok false, st1).
Proof.
  intros Hreq Hget.
  unfold OAuth1RequestValidator.verify_realms,
    OAuth1RequestValidator.lookup_request_token,
    OAuth1RequestValidator.get_request, bind, ret.
  rewrite Hreq, Hget. reflexivity.
Qed.

Lemma validate_access_token_absent self ck token st st1 :
  Request.access_token (request st) = None ->
  OAuth1RequestValidator._tokengetter self ck token st = (Ok None, st1) ->
  OAuth1RequestValidator.validate_access_token self ck token st
  = (Ok false, st1).
Proof.
  intros Hreq Hget.
  unfold OAuth1RequestValidator.validate_access_token,
    OAuth1RequestValidator.lookup_access_token,
    OAuth1RequestValidator.get_request, bind, ret.
  rewrite Hreq, Hget. reflexivity.
Qed.

(** C7. For a resolved client that has no [validate_realms] method of its
    own (and carries the default realms the test reads),
    [validate_requested_realms] returns true for every list of requested
    realms, whether or not the defaults cover them: both arms of the
    superset test return true. *)
Theorem validate_requested_realms_permissive
    self ck requested st c st' defaults :
  resolves_client self ck st c st' ->
  Client.validate_realms c = None ->
  Client.default_realms c = Some defaults ->
  OAuth1RequestValidator.validate_requested_realms self ck requested st
  = (Ok true, st').
Proof.
  unfold resolves_client,
    OAuth1RequestValidator.validate_requested_realms,
    OAuth1RequestValidator.resolve_client,
    OAuth1RequestValidator.get_request,
    OAuth1RequestValidator.set_request, bind, modify, ret.
  destruct (Request.client (request st)) as [k|] eqn:Hreq.
  - intros [-> ->] Hcustom Hdefaults. rewrite Hreq. simpl.
    rewrite Hcustom, Hdefaults. simpl.
    destruct (issuperset _ _); reflexivity.
  - intros (st1 & Hget & ->) Hcustom Hdefaults. rewrite Hget. simpl.
    rewrite Hcustom, Hdefaults. simpl.
    destruct (issuperset _ _); reflexivity.
Qed.

End RealmFacts.

(** C3. The claim: no validator method faults; [validate_realms] and
    [get_redirect_uri] answer with a failure verdict when the token getter
    finds nothing. The code: with no token on the request and a getter that
    returns [None], both raise [AttributeError]. *)
Theorem absent_token_raises_attribute_error {S}
    (self : OAuth1RequestValidator.t S) ck token uri realms_
    (st st1 st2 : VState S) :
  Request.access_token (request st) = None ->
  Request.request_token (request st) = None ->
  OAuth1RequestValidator._tokengetter self ck token st = (Ok None, st1) ->
  OAuth1RequestValidator._grantgetter self token st = (Ok None, st2) ->
  fst (OAuth1RequestValidator.validate_realms self ck token uri realms_ st)
    = Raise AttributeError /\
  fst (OAuth1RequestValidator.get_redirect_uri self token st)
    = Raise AttributeError.
Proof.
  intros Ha Hr Htok Hgrant. split.
  - by rewrite (validate_realms_absent _ _ _ _ _ _ _ Ha Htok).
  - by rewrite (get_redirect_uri_absent _ _ _ _ Hr Hgrant).
Qed.

Lemma absent_token_raises_attribute_error_witness :
  fst (OAuth1RequestValidator.validate_realms MemoryStore.validator
         "ck1" "dummy_access_token" None (Some ["email"])
         MemoryStore.populated)
    = Raise AttributeError /\
  fst (OAuth1RequestValidator.get_redirect_uri MemoryStore.validator
         "dummy_access_token" MemoryStore.populated)
    = Raise AttributeError.
Proof.
  apply (absent_token_raises_attribute_error MemoryStore.validator
           "ck1" "dummy_access_token" None (Some ["email"])
           MemoryStore.populated MemoryStore.populated MemoryStore.populated);
    vm_compute; reflexivity.
Defined.

Lemma validate_realms_iff_superset_witness :
  exists verdict,
    OAuth1RequestValidator.validate_realms MemoryStore.validator
      "ck1" "at1" None (Some ["address"; "email"; "email"])
      MemoryStore.populated
      = (Ok verdict,
         {| request :=
              Request.set_access_token (Some MemoryStore.token1)
                (request MemoryStore.populated);
            store := store MemoryStore.populated |}) /\
    (verdict = true <->
     forall r, r ∈ ["address"; "email"; "email"] ->
               r ∈ AccessToken.realms MemoryStore.token1).
Proof.
  apply (validate_realms_iff_superset MemoryStore.validator
           "ck1" "at1" None ["address"; "email"; "email"]
           MemoryStore.populated MemoryStore.token1).
  unfold resolves_access_token. simpl.
  exists MemoryStore.populated. split; vm_compute; reflexivity.
Defined.

Lemma validate_requested_realms_permissive_witness :
  OAuth1RequestValidator.validate_requested_realms MemoryStore.validator
    "ck1" ["admin"] MemoryStore.populated
  = (Ok true,
     {| request :=
          Request.set_client (Some MemoryStore.client1)
            (request MemoryStore.populated);
        store := store MemoryStore.populated |}).
Proof.
  apply (validate_requested_realms_permissive MemoryStore.validator
           "ck1" ["admin"] MemoryStore.populated MemoryStore.client1 _
           ["email"]).
  - unfold resolves_client. simpl.
    exists MemoryStore.populated. split; vm_compute; reflexivity.
  - reflexivity.
  - reflexivity.
Defined.

(** ** Verifiers *)

Section VerifierFacts.
Context {S : Type}.
Implicit Types (self : OAuth1RequestValidator.t S) (st : VState S).

(** C5, as the code has it. [validate_verifier] returns true exactly when
    no verifier getter is registered (verifiers are disabled), or the
    getter returns a record for the (verifier, token) pair whose
    [client_key], if the record has one, is the claimed client key. *)
Theorem validate_verifier_true_iff self ck token verifier st st' :
  OAuth1RequestValidator.validate_verifier self ck token verifier st
    = (Ok true, st') <->
  match OAuth1RequestValidator._verifiergetter self with
  | None => st' = st
  | Some getter =>
      exists data,
        getter {| vk_verifier := verifier; vk_token := token;
                  vk_request := None |} st = (Ok (Some data), st') /\
        forall k, VerifierData.client_key data = Some k -> k = ck
  end.
Proof.
  unfold OAuth1RequestValidator.validate_verifier, bind, ret.
  destruct (OAuth1RequestValidator._verifiergetter self) as [getter|].
  - destruct (getter _ st) as [[[d|]|e] st1] eqn:Hget.
    + destruct d as [[k|]]; simpl.
      * split.
        -- intros [= Heq ->]. apply String.eqb_eq in Heq as ->.
           eexists. split; [reflexivity|]. by intros ? [= ->].
        -- intros (data & [= <- <-] & Hk). simpl in Hk.
           rewrite (Hk k eq_refl), String.eqb_refl. reflexivity.
      * split.
        -- intros [= ->]. eexists. split; [reflexivity|]. by intros ? [=].
        -- by intros (data & [= <- <-] & _).
    + split; [by intros [=] | by intros (data & [=] & _)].
    + split; [by intros [=] | by intros (data & [=] & _)].
  - split; [by intros [= ->] | by intros ->].
Qed.

(** [save_verifier] only tests whether a setter is there: which setter it
    is makes no difference to what it does. *)
Lemma save_verifier_ignores_setter self self' token verifier :
  OAuth1RequestValidator._verifiergetter self
    = OAuth1RequestValidator._verifiergetter self' ->
  is_Some (OAuth1RequestValidator._verifiersetter self) ->
  is_Some (OAuth1RequestValidator._verifiersetter self') ->
  OAuth1RequestValidator.save_verifier self token verifier
  = OAuth1RequestValidator.save_verifier self' token verifier.
Proof.
  intros Hget [f Hf] [g Hg].
  unfold OAuth1RequestValidator.save_verifier.
  by rewrite Hf, Hg, Hget.
Qed.

(** With a setter registered, the call goes to the getter, with a
    [request=] keyword. *)
Lemma save_verifier_calls_getter self token verifier st setter callee :
  OAuth1RequestValidator._verifiersetter self = Some setter ->
  OAuth1RequestValidator._verifiergetter self = Some callee ->
  OAuth1RequestValidator.save_verifier self token verifier st
  = match callee {| vk_verifier := verifier; vk_token := token;
                    vk_request := Some (request st) |} st with
    | (Ok _, st1) => (Ok tt, st1)
    | (Raise e, st1) => (Raise e, st1)
    end.
Proof.
  intros Hset Hget.
  unfold OAuth1RequestValidator.save_verifier,
    OAuth1RequestValidator.get_request, bind, ret.
  rewrite Hset, Hget. reflexivity.
Qed.

End VerifierFacts.

(** C5, as worded, fails: without a verifier getter every verifier is
    accepted, and no record exists. *)
Lemma verifier_not_always_bound : ~ verifier_always_bound MemoryStore.t.
Proof.
  intros Hclaim.
  destruct (Hclaim MemoryStore.validator_without_verifier
              "ck1" "rt1" "anything" MemoryStore.fresh MemoryStore.fresh)
    as (getter & data & Hgetter & _).
  - reflexivity.
  - discriminate Hgetter.
Qed.

(** C6. The claim: with a verifier setter registered, [save_verifier]
    hands token, verifier and request to that setter. The code, on the
    in-memory store with both verifier callbacks registered: the call goes
    to the getter, whose signature has no [request], so it raises
    [TypeError] and nothing is stored; the registered setter, called with
    the same arguments, stores the verifier. *)
Theorem save_verifier_does_not_reach_setter :
  OAuth1RequestValidator.save_verifier MemoryStore.validator "rt1" "v1"
    MemoryStore.populated
    = (Raise TypeError, MemoryStore.populated) /\
  exists st',
    MemoryStore.save_verifier
      {| vk_verifier := "v1"; vk_token := "rt1";
         vk_request := Some (request MemoryStore.populated) |}
      MemoryStore.populated = (Ok PyNone, st') /\
    is_Some (MemoryStore.verifiers (store st') !! ("v1", "rt1")) /\
    MemoryStore.verifiers (store MemoryStore.populated) !! ("v1", "rt1")
      = None.
Proof.
  split; [vm_compute; reflexivity|].
  eexists. split; [vm_compute; reflexivity|].
  split; [|vm_compute; reflexivity].
  eexists. vm_compute. reflexivity.
Qed.

(** ** Building the server *)

Section ServerFacts.
Context {S : Type}.
Implicit Types (st : OAuth1Provider.PState S).

(** A validator assigned beforehand is wrapped as it is, whatever is
    registered and whatever the application. *)
Lemma server_preassigned st v :
  OAuth1Provider._validator (OAuth1Provider.self st) = Some v ->
  OAuth1Provider.server st = (Ok (Server_new v), st).
Proof.
  intros Hv. unfold OAuth1Provider.server, OAuth1Provider.get_self, bind, ret.
  rewrite Hv. reflexivity.
Qed.

(** The server built from the registered callbacks. *)
Lemma server_assembled st a :
  OAuth1Provider._validator (OAuth1Provider.self st) = None ->
  OAuth1Provider.required_registered (OAuth1Provider.self st) = true ->
  OAuth1Provider.app (OAuth1Provider.self st) = Some a ->
  exists validator,
    OAuth1Provider.server st
    = (Ok {| request_validator := validator;
             _check_signature :=
               if testing a then Some (fun _ => true) else None |},
       OAuth1Provider.update_self
         (OAuth1Provider.set_validator (Some validator)) st) /\
    OAuth1RequestValidator._verifiergetter validator
      = OAuth1Provider._verifiergetter (OAuth1Provider.self st) /\
    OAuth1RequestValidator._verifiersetter validator
      = OAuth1Provider._verifiersetter (OAuth1Provider.self st) /\
    OAuth1RequestValidator._config validator = config a.
Proof.
  intros Hv Hreg Happ.
  unfold OAuth1Provider.server, OAuth1Provider.get_self, bind, ret, modify.
  unfold OAuth1Provider.required_registered in Hreg.
  rewrite Hv, Happ.
  destruct (OAuth1Provider._clientgetter (OAuth1Provider.self st));
    [|discriminate Hreg].
  destruct (OAuth1Provider._tokengetter (OAuth1Provider.self st));
    [|discriminate Hreg].
  destruct (OAuth1Provider._tokensetter (OAuth1Provider.self st));
    [|discriminate Hreg].
  destruct (OAuth1Provider._noncegetter (OAuth1Provider.self st));
    [|discriminate Hreg].
  destruct (OAuth1Provider._noncesetter (OAuth1Provider.self st));
    [|discriminate Hreg].
  destruct (OAuth1Provider._grantgetter (OAuth1Provider.self st));
    [|discriminate Hreg].
  destruct (OAuth1Provider._grantsetter (OAuth1Provider.self st));
    [|discriminate Hreg].
  simpl. eexists. split.
  - destruct (testing a); reflexivity.
  - simpl. repeat split; reflexivity.
Qed.

(** C8, as the code has it. On a provider with no validator assigned
    beforehand, building the server raises [RuntimeError] when any of the
    seven required callbacks is not registered; with the seven registered
    and an application bound, the server is built, whether or not a
    verifier getter or setter is registered. *)
Theorem server_requires_seven_callbacks st :
  OAuth1Provider._validator (OAuth1Provider.self st) = None ->
  (OAuth1Provider.required_registered (OAuth1Provider.self st) = false ->
   OAuth1Provider.server st = (Raise RuntimeError, st)) /\
  (OAuth1Provider.required_registered (OAuth1Provider.self st) = true ->
   forall a, OAuth1Provider.app (OAuth1Provider.self st) = Some a ->
   exists srv st',
     OAuth1Provider.server st = (Ok srv, st') /\
     OAuth1RequestValidator._verifiergetter (request_validator srv)
       = OAuth1Provider._verifiergetter (OAuth1Provider.self st) /\
     OAuth1RequestValidator._verifiersetter (request_validator srv)
       = OAuth1Provider._verifiersetter (OAuth1Provider.self st)).
Proof.
  intros Hv. split.
  - intros Hreg.
    unfold OAuth1Provider.server, OAuth1Provider.get_self, bind, ret.
    unfold OAuth1Provider.required_registered in Hreg.
    rewrite Hv.
    destruct (OAuth1Provider._clientgetter (OAuth1Provider.self st));
      [|reflexivity].
    destruct (OAuth1Provider._tokengetter (OAuth1Provider.self st));
      [|reflexivity].
    destruct (OAuth1Provider._tokensetter (OAuth1Provider.self st));
      [|reflexivity].
    destruct (OAuth1Provider._noncegetter (OAuth1Provider.self st));
      [|reflexivity].
    destruct (OAuth1Provider._noncesetter (OAuth1Provider.self st));
      [|reflexivity].
    destruct (OAuth1Provider._grantgetter (OAuth1Provider.self st));
      [|reflexivity].
    destruct (OAuth1Provider._grantsetter (OAuth1Provider.self st));
      [|reflexivity].
    discriminate Hreg.
  - intros Hreg a Happ.
    destruct (server_assembled st a Hv Hreg Happ)
      as (validator & Hsrv & Hg & Hs & _).
    do 2 eexists. split; [exact Hsrv|]. simpl. by split.
Qed.

(** C10, as the code has it. On a testing application, the server
    assembled from the registered callbacks (no validator assigned
    beforehand, the seven callbacks registered) has its signature check
    replaced by a function that is true for every input. *)
Theorem testing_server_accepts_every_signature st a :
  OAuth1Provider._validator (OAuth1Provider.self st) = None ->
  OAuth1Provider.required_registered (OAuth1Provider.self st) = true ->
  OAuth1Provider.app (OAuth1Provider.self st) = Some a ->
  testing a = true ->
  exists srv st',
    OAuth1Provider.server st = (Ok srv, st') /\
    exists f, _check_signature srv = Some f /\ forall args, f args = true.
Proof.
  intros Hv Hreg Happ Htesting.
  destruct (server_assembled st a Hv Hreg Happ) as (validator & Hsrv & _).
  rewrite Htesting in Hsrv.
  do 2 eexists. split; [exact Hsrv|].
  simpl. eexists. split; [reflexivity|]. reflexivity.
Qed.

(** Outside testing mode the assembled server keeps oauthlib's check. *)
Lemma production_server_keeps_signature_check st a :
  OAuth1Provider._validator (OAuth1Provider.self st) = None ->
  OAuth1Provider.required_registered (OAuth1Provider.self st) = true ->
  OAuth1Provider.app (OAuth1Provider.self st) = Some a ->
  testing a = false ->
  exists srv st',
    OAuth1Provider.server st = (Ok srv, st') /\ _check_signature srv = None.
Proof.
  intros Hv Hreg Happ Htesting.
  destruct (server_assembled st a Hv Hreg Happ) as (validator & Hsrv & _).
  rewrite Htesting in Hsrv. by do 2 eexists.
Qed.

(** [self.server] builds once: after a successful access the server sits
    in its slot, and the next access returns it unchanged. *)
Lemma self_server_cached st srv st' :
  OAuth1Provider.cached_server (OAuth1Provider.self st) = None ->
  OAuth1Provider.server st = (Ok srv, st') ->
  OAuth1Provider.self_server st
  = (Ok srv,
     OAuth1Provider.update_self
       (OAuth1Provider.set_cached_server (Some srv)) st') /\
  OAuth1Provider.self_server
    (OAuth1Provider.update_self
       (OAuth1Provider.set_cached_server (Some srv)) st')
  = (Ok srv,
     OAuth1Provider.update_self
       (OAuth1Provider.set_cached_server (Some srv)) st').
Proof.
  intros Hslot Hsrv.
  unfold OAuth1Provider.self_server, OAuth1Provider.cached_property,
    OAuth1Provider.get_self, bind, ret, modify.
  rewrite Hslot, Hsrv. simpl. done.
Qed.

End ServerFacts.

(** C8, as worded, fails: with a validator assigned beforehand the server
    is built although nothing is registered. *)
Lemma server_not_always_refuses : ~ server_always_refuses MemoryStore.t.
Proof.
  intros Hclaim.
  destruct (Hclaim (MemoryStore.serving MemoryStore.preassigned "GET"))
    as (e & st' & Hraise).
  - reflexivity.
  - rewrite (server_preassigned _ MemoryStore.validator) in Hraise;
      [discriminate Hraise | reflexivity].
Qed.

Lemma server_requires_seven_callbacks_witness :
  OAuth1Provider.server (MemoryStore.serving MemoryStore.unregistered "GET")
  = (Raise RuntimeError, MemoryStore.serving MemoryStore.unregistered "GET").
Proof.
  apply (server_requires_seven_callbacks
           (MemoryStore.serving MemoryStore.unregistered "GET"));
    reflexivity.
Defined.

(** C10, as worded, fails: on a testing application with a validator
    assigned beforehand, the server that is built has no replacement for
    its signature check. *)
Lemma testing_not_always_overrides :
  ~ testing_always_overrides MemoryStore.t.
Proof.
  intros Hclaim.
  destruct (Hclaim (MemoryStore.serving MemoryStore.preassigned "GET")
              (MemoryStore.serving MemoryStore.preassigned "GET")
              MemoryStore.testing_app (Server_new MemoryStore.validator))
    as (f & Hf & _).
  - reflexivity.
  - reflexivity.
  - reflexivity.
  - discriminate Hf.
Qed.

Lemma testing_server_accepts_every_signature_witness :
  exists srv st',
    OAuth1Provider.server (MemoryStore.serving MemoryStore.registered "GET")
      = (Ok srv, st') /\
    exists f, _check_signature srv = Some f /\ forall args, f args = true.
Proof.
  apply (testing_server_accepts_every_signature
           (MemoryStore.serving MemoryStore.registered "GET")
           MemoryStore.testing_app);
    reflexivity.
Defined.

(** ** The view decorators *)

Section ViewFacts.
Context {S : Type} `{!OAuth1Provider.Externals S}.
Implicit Types (st : OAuth1Provider.PState S).

(** The configured error page: the explicit URI when there is one. *)
Lemma error_uri_configured st a u :
  OAuth1Provider.app (OAuth1Provider.self st) = Some a ->
  OAUTH1_PROVIDER_ERROR_URI (config a) = Some u ->
  u <> "" ->
  OAuth1Provider.error_uri st = (Ok u, st).
Proof.
  intros Happ Hcfg Hne.
  unfold OAuth1Provider.error_uri, OAuth1Provider.get_self, bind, ret.
  rewrite Happ. simpl. rewrite Hcfg. simpl.
  destruct (String.eqb u "") eqn:Heq; [|reflexivity].
  apply String.eqb_eq in Heq. contradiction.
Qed.

(** With nothing configured it is [/oauth/errors]. *)
Lemma error_uri_default st a :
  OAuth1Provider.app (OAuth1Provider.self st) = Some a ->
  OAUTH1_PROVIDER_ERROR_URI (config a) = None ->
  OAUTH1_PROVIDER_ERROR_ENDPOINT (config a) = None ->
  OAuth1Provider.error_uri st = (Ok "/oauth/errors", st).
Proof.
  intros Happ Huri Hendpoint.
  unfold OAuth1Provider.error_uri, OAuth1Provider.get_self, bind, ret.
  rewrite Happ. simpl. rewrite Huri, Hendpoint. reflexivity.
Qed.

(** C4. Once the server has produced a verdict for a protected-resource
    request: on a false verdict the decorated view aborts with HTTP 403,
    in the state the validation left, whatever the wrapped view is, which
    is not run; on a true verdict it is the wrapped view, run with the
    resolved request put in front of its arguments. *)
Theorem require_oauth_verdict {R} (realms_ : list string)
    (f : OAuth1Provider.Handler S R) args kwargs
    st srv st1 params st2 valid req st3 :
  OAuth1Provider.self_server st = (Ok srv, st1) ->
  OAuth1Provider._extract_params st1 = (Ok params, st2) ->
  OAuth1Provider.validate_protected_resource_request srv params realms_ st2
    = (Ok (valid, req), st3) ->
  (valid = false ->
   OAuth1Provider.require_oauth realms_ f args kwargs st
     = (Raise (HTTPException 403), st3)) /\
  (valid = true ->
   OAuth1Provider.require_oauth realms_ f args kwargs st
     = f (ArgRequest req :: args) kwargs st3).
Proof.
  intros Hsrv Hparams Hverdict.
  unfold OAuth1Provider.require_oauth, bind.
  rewrite Hsrv, Hparams, Hverdict.
  split; intros ->; reflexivity.
Qed.

(** C9. On a POST to the authorization endpoint where the wrapped view
    returns a falsy decision, the decorated view answers with a redirect to
    the error URI with [error=denied] added to it, in the state left by the
    view and the look-up of the error URI: the confirmation of the
    authorization request is not entered. *)
Theorem authorize_handler_denied (f : OAuth1Provider.Handler S retval)
    args kwargs st decision st1 base st2 :
  method (OAuth1Provider.flask_request st) = "POST" ->
  f args kwargs st = (Ok decision, st1) ->
  retval_truthy decision = false ->
  OAuth1Provider.self_error_uri st1 = (Ok base, st2) ->
  OAuth1Provider.authorize_handler f args kwargs st
  = (Ok (Resp (Redirect
                 (OAuth1Provider.add_params_to_uri base
                    [("error", "denied")]))), st2).
Proof.
  intros Hmethod Hdecision Hfalsy Hbase.
  unfold OAuth1Provider.authorize_handler, bind, get.
  rewrite Hmethod. simpl. rewrite Hdecision, Hfalsy. simpl.
  rewrite Hbase. reflexivity.
Qed.

(** On an approving decision the confirmation is what runs. *)
Lemma authorize_handler_approved (f : OAuth1Provider.Handler S retval)
    args kwargs st decision st1 :
  method (OAuth1Provider.flask_request st) = "POST" ->
  f args kwargs st = (Ok decision, st1) ->
  retval_truthy decision = true ->
  OAuth1Provider.authorize_handler f args kwargs st
  = OAuth1Provider.confirm_authorization_request st1.
Proof.
  intros Hmethod Hdecision Htruthy.
  unfold OAuth1Provider.authorize_handler, bind, get.
  rewrite Hmethod. simpl. rewrite Hdecision, Htruthy. reflexivity.
Qed.

End ViewFacts.

Lemma require_oauth_verdict_witness :
  fst (OAuth1Provider.require_oauth ["email"] MemoryStore.resource_view
         [] ∅ (MemoryStore.serving MemoryStore.registered "GET"))
  = Raise (HTTPException 403).
Proof.
  edestruct (require_oauth_verdict ["email"] MemoryStore.resource_view
               [] ∅ (MemoryStore.serving MemoryStore.registered "GET"))
    as [Hfalse _].
  - vm_compute. reflexivity.
  - vm_compute. reflexivity.
  - vm_compute. reflexivity.
  - rewrite Hfalse; reflexivity.
Defined.

Lemma authorize_handler_denied_witness :
  OAuth1Provider.authorize_handler MemoryStore.denying_view
    [] ∅ (MemoryStore.serving MemoryStore.registered "POST")
  = (Ok (Resp (Redirect
                 (OAuth1Provider.add_params_to_uri "/oauth/errors"
                    [("error", "denied")]))),
     OAuth1Provider.update_self
       (OAuth1Provider.set_cached_error_uri (Some "/oauth/errors"))
       (MemoryStore.serving MemoryStore.registered "POST")).
Proof.
  apply (authorize_handler_denied MemoryStore.denying_view
           [] ∅ (MemoryStore.serving MemoryStore.registered "POST")
           (Value (PyBool false))
           (MemoryStore.serving MemoryStore.registered "POST")
           "/oauth/errors").
  - reflexivity.
  - reflexivity.
  - reflexivity.
  - vm_compute. reflexivity.
Defined.

(** * Further properties of the validator *)

(** ** Verdicts and secrets agree *)

Section LookupFacts.
Context {S : Type}.
Implicit Types (self : OAuth1RequestValidator.t S) (st : VState S).

Lemma vstate_set_client_same st c :
  Request.client (request st) = Some c ->
  {| request := Request.set_client (Some c) (request st);
     store := store st |} = st.
Proof. destruct st as [[] ?]; simpl; by intros ->. Qed.

Lemma vstate_set_request_token_same st k :
  Request.request_token (request st) = Some k ->
  {| request := Request.set_request_token (Some k) (request st);
     store := store st |} = st.
Proof. destruct st as [[] ?]; simpl; by intros ->. Qed.

Lemma vstate_set_access_token_same st k :
  Request.access_token (request st) = Some k ->
  {| request := Request.set_access_token (Some k) (request st);
     store := store st |} = st.
Proof. destruct st as [[] ?]; simpl; by intros ->. Qed.

(** X1. [validate_client_key] answers true exactly when
    [get_client_secret] yields a secret, raises exactly when it raises, and
    both leave the same state. *)
Theorem validate_client_key_agrees_with_secret self ck st :
  OAuth1RequestValidator.validate_client_key self ck st
  = match OAuth1RequestValidator.get_client_secret self ck st with
    | (Ok secret, st') => (Ok (bool_decide (is_Some secret)), st')
    | (Raise e, st') => (Raise e, st')
    end.
Proof.
  unfold OAuth1RequestValidator.validate_client_key,
    OAuth1RequestValidator.get_client_secret,
    OAuth1RequestValidator.resolve_client,
    OAuth1RequestValidator.get_request,
    OAuth1RequestValidator.set_request, bind, modify, ret.
  destruct (Request.client (request st)) as [c|] eqn:Hreq.
  - rewrite Hreq. reflexivity.
  - destruct (OAuth1RequestValidator._clientgetter self ck st)
      as [[[c|]|e] st1]; reflexivity.
Qed.

(** X2. [validate_request_token] answers true exactly when
    [get_request_token_secret] yields a secret, and both leave the same
    state. *)
Theorem validate_request_token_agrees_with_secret self ck token st :
  OAuth1RequestValidator.validate_request_token self ck token st
  = match OAuth1RequestValidator.get_request_token_secret self ck token st
    with
    | (Ok secret, st') => (Ok (bool_decide (is_Some secret)), st')
    | (Raise e, st') => (Raise e, st')
    end.
Proof.
  unfold OAuth1RequestValidator.validate_request_token,
    OAuth1RequestValidator.get_request_token_secret, bind.
  destruct (OAuth1RequestValidator.lookup_request_token self token st)
    as [[[k|]|e] st1]; try reflexivity.
  destruct (String.eqb (RequestToken.client_key k) ck); reflexivity.
Qed.

(** X3. [validate_access_token] answers true exactly when
    [get_access_token_secret] yields a secret, and both leave the same
    state. *)
Theorem validate_access_token_agrees_with_secret self ck token st :
  OAuth1RequestValidator.validate_access_token self ck token st
  = match OAuth1RequestValidator.get_access_token_secret self ck token st
    with
    | (Ok secret, st') => (Ok (bool_decide (is_Some secret)), st')
    | (Raise e, st') => (Raise e, st')
    end.
Proof.
  unfold OAuth1RequestValidator.validate_access_token,
    OAuth1RequestValidator.get_access_token_secret, bind.
  destruct (OAuth1RequestValidator.lookup_access_token self ck token st)
    as [[[k|]|e] st1]; reflexivity.
Qed.

(** A true verdict of [validate_client_key] leaves a client on the
    request. *)
Lemma validate_client_key_true_caches self ck st st' :
  OAuth1RequestValidator.validate_client_key self ck st = (Ok true, st') ->
  is_Some (Request.client (request st')).
Proof.
  unfold OAuth1RequestValidator.validate_client_key,
    OAuth1RequestValidator.resolve_client,
    OAuth1RequestValidator.get_request,
    OAuth1RequestValidator.set_request, bind, modify, ret.
  destruct (Request.client (request st)) as [c|] eqn:Hreq.
  - rewrite Hreq. intros [= <-]. rewrite Hreq. by eexists.
  - destruct (OAuth1RequestValidator._clientgetter self ck st)
      as [[[c|]|e] st1]; simpl; intros [= <-]. simpl. by eexists.
Qed.

(** X4. Once [validate_client_key] has answered true, the client sits on
    the request, and later client look-ups of the same pass answer from it:
    whatever validator and whatever client key they are called with, the
    client getter is not consulted and the state does not change. *)
Theorem client_is_looked_up_once self ck st st' :
  OAuth1RequestValidator.validate_client_key self ck st = (Ok true, st') ->
  exists c,
    Request.client (request st') = Some c /\
    forall self' ck',
      OAuth1RequestValidator.validate_client_key self' ck' st'
        = (Ok true, st') /\
      OAuth1RequestValidator.get_client_secret self' ck' st'
        = (Ok (Some (Client.client_secret c)), st') /\
      OAuth1RequestValidator.get_default_realms self' ck' st'
        = (Ok (default [] (Client.default_realms c)), st').
Proof.
  intros Hvalid.
  destruct (validate_client_key_true_caches _ _ _ _ Hvalid) as [c Hc].
  exists c. split; [exact Hc|]. intros self' ck'.
  unfold OAuth1RequestValidator.validate_client_key,
    OAuth1RequestValidator.get_client_secret,
    OAuth1RequestValidator.get_default_realms,
    OAuth1RequestValidator.resolve_client,
    OAuth1RequestValidator.get_request, bind, ret.
  rewrite Hc. simpl. rewrite Hc. simpl.
  repeat split. by destruct (Client.default_realms c).
Qed.

(** X5. A true verdict of [validate_request_token] leaves on the request a
    token that belongs to the claimed client; [verify_request_token] then
    answers true from it. *)
Theorem validate_request_token_binds_client self ck token st st' :
  OAuth1RequestValidator.validate_request_token self ck token st
    = (Ok true, st') ->
  exists k,
    Request.request_token (request st') = Some k /\
    RequestToken.client_key k = ck /\
    forall self' token',
      OAuth1RequestValidator.verify_request_token self' token' st'
        = (Ok true, st').
Proof.
  unfold OAuth1RequestValidator.validate_request_token, bind.
  destruct (OAuth1RequestValidator.lookup_request_token self token st)
    as [[[k|]|e] st1]; try discriminate.
  destruct (String.eqb (RequestToken.client_key k) ck) eqn:Heq;
    [|discriminate].
  unfold OAuth1RequestValidator.set_request, modify, ret. simpl.
  intros [= <-]. exists k. simpl.
  split; [reflexivity|]. split; [by apply String.eqb_eq|].
  intros self' token'.
  unfold OAuth1RequestValidator.verify_request_token,
    OAuth1RequestValidator.lookup_request_token,
    OAuth1RequestValidator.get_request,
    OAuth1RequestValidator.set_request, bind, modify, ret.
  simpl. reflexivity.
Qed.

(** X6. A token of another client is refused by [validate_request_token]
    and is not put on the request. *)
Theorem validate_request_token_refuses_foreign_token
    self ck token st k st1 :
  OAuth1RequestValidator.lookup_request_token self token st
    = (Ok (Some k), st1) ->
  RequestToken.client_key k <> ck ->
  OAuth1RequestValidator.validate_request_token self ck token st
    = (Ok false, st1) /\
  OAuth1RequestValidator.get_request_token_secret self ck token st
    = (Ok None, st1).
Proof.
  intros Hlookup Hne.
  unfold OAuth1RequestValidator.validate_request_token,
    OAuth1RequestValidator.get_request_token_secret, bind.
  rewrite Hlookup.
  destruct (String.eqb (RequestToken.client_key k) ck) eqn:Heq.
  - apply String.eqb_eq in Heq. contradiction.
  - done.
Qed.

(** X7. With an access token already on the request, the access-token
    methods answer from it without consulting the token getter: for every
    validator, client key and token string they are called with, the token
    is accepted, its secret returned and its realms tested, and the state
    does not change. The client key is not compared with anything. *)
Theorem cached_access_token_is_trusted st tok :
  Request.access_token (request st) = Some tok ->
  forall self ck token uri required,
    OAuth1RequestValidator.validate_access_token self ck token st
      = (Ok true, st) /\
    OAuth1RequestValidator.get_access_token_secret self ck token st
      = (Ok (Some (AccessToken.secret tok)), st) /\
    OAuth1RequestValidator.validate_realms self ck token uri (Some required)
      st
      = (Ok (issuperset (list_to_set (AccessToken.realms tok))
                        (list_to_set required)), st).
Proof.
  intros Htok self ck token uri required.
  unfold OAuth1RequestValidator.validate_access_token,
    OAuth1RequestValidator.get_access_token_secret,
    OAuth1RequestValidator.validate_realms,
    OAuth1RequestValidator.lookup_access_token,
    OAuth1RequestValidator.get_request,
    OAuth1RequestValidator.set_request, bind, modify, ret.
  rewrite Htok. simpl.
  rewrite (vstate_set_access_token_same st tok Htok). done.
Qed.

End LookupFacts.

Lemma client_is_looked_up_once_witness :
  exists c,
    Request.client
      (request
         {| request :=
              Request.set_client (Some MemoryStore.client1)
                (request MemoryStore.populated);
            store := store MemoryStore.populated |}) = Some c /\
    forall self' ck',
      OAuth1RequestValidator.validate_client_key self' ck'
        {| request :=
             Request.set_client (Some MemoryStore.client1)
               (request MemoryStore.populated);
           store := store MemoryStore.populated |}
        = (Ok true,
           {| request :=
                Request.set_client (Some MemoryStore.client1)
                  (request MemoryStore.populated);
              store := store MemoryStore.populated |}) /\
      OAuth1RequestValidator.get_client_secret self' ck'
        {| request :=
             Request.set_client (Some MemoryStore.client1)
               (request MemoryStore.populated);
           store := store MemoryStore.populated |}
        = (Ok (Some (Client.client_secret c)),
           {| request :=
                Request.set_client (Some MemoryStore.client1)
                  (request MemoryStore.populated);
              store := store MemoryStore.populated |}) /\
      OAuth1RequestValidator.get_default_realms self' ck'
        {| request :=
             Request.set_client (Some MemoryStore.client1)
               (request MemoryStore.populated);
           store := store MemoryStore.populated |}
        = (Ok (default [] (Client.default_realms c)),
           {| request :=
                Request.set_client (Some MemoryStore.client1)
                  (request MemoryStore.populated);
              store := store MemoryStore.populated |}).
Proof.
  apply (client_is_looked_up_once MemoryStore.validator "ck1"
           MemoryStore.populated).
  vm_compute. reflexivity.
Defined.

Lemma validate_request_token_binds_client_witness :
  exists k,
    Request.request_token
      (request
         {| request :=
              Request.set_request_token (Some MemoryStore.grant1)
                (request MemoryStore.granting);
            store := store MemoryStore.granting |}) = Some k /\
    RequestToken.client_key k = "ck1" /\
    forall self' token',
      OAuth1RequestValidator.verify_request_token self' token'
        {| request :=
             Request.set_request_token (Some MemoryStore.grant1)
               (request MemoryStore.granting);
           store := store MemoryStore.granting |}
      = (Ok true,
         {| request :=
              Request.set_request_token (Some MemoryStore.grant1)
                (request MemoryStore.granting);
            store := store MemoryStore.granting |}).
Proof.
  apply (validate_request_token_binds_client MemoryStore.validator
           "ck1" "rt1" MemoryStore.granting).
  vm_compute. reflexivity.
Defined.

Lemma validate_request_token_refuses_foreign_token_witness :
  OAuth1RequestValidator.validate_request_token MemoryStore.validator
    "ck2" "rt1" MemoryStore.granting
    = (Ok false, MemoryStore.granting) /\
  OAuth1RequestValidator.get_request_token_secret MemoryStore.validator
    "ck2" "rt1" MemoryStore.granting
    = (Ok None, MemoryStore.granting).
Proof.
  apply (validate_request_token_refuses_foreign_token MemoryStore.validator
           "ck2" "rt1" MemoryStore.granting MemoryStore.grant1).
  - vm_compute. reflexivity.
  - discriminate.
Defined.

Lemma cached_access_token_is_trusted_witness :
  OAuth1RequestValidator.validate_access_token
    MemoryStore.validator_without_verifier "ck2" "unknown"
    {| request :=
         Request.set_access_token (Some MemoryStore.token1) Request.empty;
       store := MemoryStore.empty |}
    = (Ok true,
       {| request :=
            Request.set_access_token (Some MemoryStore.token1)
              Request.empty;
          store := MemoryStore.empty |}) /\
  OAuth1RequestValidator.get_access_token_secret
    MemoryStore.validator_without_verifier "ck2" "unknown"
    {| request :=
         Request.set_access_token (Some MemoryStore.token1) Request.empty;
       store := MemoryStore.empty |}
    = (Ok (Some (AccessToken.secret MemoryStore.token1)),
       {| request :=
            Request.set_access_token (Some MemoryStore.token1)
              Request.empty;
          store := MemoryStore.empty |}) /\
  OAuth1RequestValidator.validate_realms
    MemoryStore.validator_without_verifier "ck2" "unknown" None
    (Some ["email"])
    {| request :=
         Request.set_access_token (Some MemoryStore.token1) Request.empty;
       store := MemoryStore.empty |}
    = (Ok (issuperset (list_to_set (AccessToken.realms MemoryStore.token1))
                      (list_to_set ["email"])),
       {| request :=
            Request.set_access_token (Some MemoryStore.token1)
              Request.empty;
          store := MemoryStore.empty |}).
Proof.
  apply (cached_access_token_is_trusted
           {| request :=
                Request.set_access_token (Some MemoryStore.token1)
                  Request.empty;
              store := MemoryStore.empty |} MemoryStore.token1).
  reflexivity.
Defined.

(** ** Realms and redirect URIs *)

Section RealmEdgeFacts.
Context {S : Type}.
Implicit Types (self : OAuth1RequestValidator.t S) (st : VState S).

(** X8. For a client that cannot be found, or that has neither a
    [validate_realms] method nor [default_realms],
    [validate_requested_realms] raises [AttributeError], where
    [get_default_realms] answers with the empty list. *)
Theorem validate_requested_realms_needs_default_realms self ck requested
    st st1 :
  OAuth1RequestValidator.resolve_client self ck st = (Ok tt, st1) ->
  (forall c, Request.client (request st1) = Some c ->
             Client.validate_realms c = None /\
             Client.default_realms c = None) ->
  OAuth1RequestValidator.validate_requested_realms self ck requested st
    = (Raise AttributeError, st1) /\
  OAuth1RequestValidator.get_default_realms self ck st = (Ok [], st1).
Proof.
  intros Hresolve Hbare.
  unfold OAuth1RequestValidator.validate_requested_realms,
    OAuth1RequestValidator.get_default_realms, bind.
  rewrite Hresolve.
  unfold OAuth1RequestValidator.get_request, ret. simpl.
  destruct (Request.client (request st1)) as [c|]; simpl.
  - destruct (Hbare c eq_refl) as [-> ->]. done.
  - done.
Qed.

(** X9. A client that has a [validate_realms] method of its own decides:
    the verdict of [validate_requested_realms] is what the method answers
    for the requested realms, and the client's default realms play no
    part. *)
Theorem validate_requested_realms_delegates self ck requested st c st'
    custom :
  resolves_client self ck st c st' ->
  Client.validate_realms c = Some custom ->
  OAuth1RequestValidator.validate_requested_realms self ck requested st
  = (Ok (custom requested), st').
Proof.
  unfold resolves_client,
    OAuth1RequestValidator.validate_requested_realms,
    OAuth1RequestValidator.resolve_client,
    OAuth1RequestValidator.get_request,
    OAuth1RequestValidator.set_request, bind, modify, ret.
  destruct (Request.client (request st)) as [k|] eqn:Hreq.
  - intros [-> ->] Hcustom. rewrite Hreq. simpl. by rewrite Hcustom.
  - intros (st1 & Hget & ->) Hcustom. rewrite Hget. simpl.
    by rewrite Hcustom.
Qed.

(** X10. [get_realms] does not raise when the look-up does not: it
    answers with the token's realms when a token is found, has the
    attribute and the attribute holds a list, and with the empty list in
    every other case. *)
Theorem get_realms_defaults_to_empty self token st o st1 :
  OAuth1RequestValidator.lookup_request_token self token st = (Ok o, st1) ->
  fst (OAuth1RequestValidator.get_realms self token st)
  = Ok (default [] ((o ≫= RequestToken.realms) ≫= id)).
Proof.
  intros Hlookup.
  unfold OAuth1RequestValidator.get_realms, bind.
  rewrite Hlookup.
  destruct o as [k|]; [|reflexivity].
  unfold OAuth1RequestValidator.set_request, modify, ret. simpl.
  destruct (RequestToken.realms k) as [[[|x l]|]|]; reflexivity.
Qed.

(** X11. For a token that carries realms, [verify_realms] answers true
    exactly when the token's realms and the given realms are the same
    set: order and repetition do not matter. *)
Theorem verify_realms_iff_same_set self token requested st k st1 granted :
  OAuth1RequestValidator.lookup_request_token self token st
    = (Ok (Some k), st1) ->
  RequestToken.realms k = Some (Some granted) ->
  exists verdict st',
    OAuth1RequestValidator.verify_realms self token requested st
      = (Ok verdict, st') /\
    (verdict = true <-> forall r, r ∈ granted <-> r ∈ requested).
Proof.
  intros Hlookup Hrealms.
  unfold OAuth1RequestValidator.verify_realms, bind.
  rewrite Hlookup.
  unfold OAuth1RequestValidator.set_request, modify, ret. simpl.
  rewrite Hrealms. simpl.
  do 2 eexists. split; [reflexivity|].
  rewrite bool_decide_eq_true. set_solver.
Qed.

(** X12. For a token without a [realms] attribute, realms are not in
    use: [verify_realms] answers true whatever realms it is given. *)
Theorem verify_realms_without_attribute self token requested st k st1 :
  OAuth1RequestValidator.lookup_request_token self token st
    = (Ok (Some k), st1) ->
  RequestToken.realms k = None ->
  fst (OAuth1RequestValidator.verify_realms self token requested st)
  = Ok true.
Proof.
  intros Hlookup Hrealms.
  unfold OAuth1RequestValidator.verify_realms, bind.
  rewrite Hlookup.
  unfold OAuth1RequestValidator.set_request, modify, ret. simpl.
  by rewrite Hrealms.
Qed.

(** X13. For a token whose [realms] attribute holds [None],
    [verify_realms] raises [TypeError], where [get_realms] answers with
    the empty list. *)
Theorem verify_realms_unset_realms self token requested st k st1 :
  OAuth1RequestValidator.lookup_request_token self token st
    = (Ok (Some k), st1) ->
  RequestToken.realms k = Some None ->
  fst (OAuth1RequestValidator.verify_realms self token requested st)
    = Raise TypeError /\
  fst (OAuth1RequestValidator.get_realms self token st) = Ok [].
Proof.
  intros Hlookup Hrealms.
  unfold OAuth1RequestValidator.verify_realms,
    OAuth1RequestValidator.get_realms, bind.
  rewrite Hlookup.
  unfold OAuth1RequestValidator.set_request, modify, ret. simpl.
  by rewrite Hrealms.
Qed.

(** X14. For a client that is found, [validate_redirect_uri] answers true
    exactly when the client has no registered URI and none is given, or
    the given URI is one of the registered ones. *)
Theorem validate_redirect_uri_iff self ck uri st st1 c :
  OAuth1RequestValidator.resolve_client self ck st = (Ok tt, st1) ->
  Request.client (request st1) = Some c ->
  exists verdict st',
    OAuth1RequestValidator.validate_redirect_uri self ck uri st
      = (Ok verdict, st') /\
    (verdict = true <->
     (Client.redirect_uris c = [] /\ uri = None) \/
     (exists u, uri = Some u /\ u ∈ Client.redirect_uris c)).
Proof.
  intros Hresolve Hclient.
  unfold OAuth1RequestValidator.validate_redirect_uri, bind.
  rewrite Hresolve.
  unfold OAuth1RequestValidator.get_request,
    OAuth1RequestValidator.set_request, modify, ret. simpl.
  rewrite Hclient.
  destruct uri as [u|]; simpl.
  - rewrite andb_false_r. simpl.
    do 2 eexists. split; [reflexivity|].
    rewrite bool_decide_eq_true. split.
    + intros Hin. right. by exists u.
    + intros [[_ [=]] | (u' & [= <-] & Hin)]. exact Hin.
  - rewrite andb_true_r.
    destruct (bool_decide (Client.redirect_uris c = [])) eqn:Hempty.
    + apply bool_decide_eq_true in Hempty.
      do 2 eexists. split; [reflexivity|]. split; [|done]. by left.
    + apply bool_decide_eq_false in Hempty. simpl.
      do 2 eexists. split; [reflexivity|]. split; [done|].
      intros [[Hnil _] | (u & [=] & _)]. contradiction.
Qed.

(** X15. A client that cannot be found has no valid redirect URI, and the
    request's [redirect_uri] is left alone. *)
Theorem validate_redirect_uri_unknown_client self ck uri st st1 :
  OAuth1RequestValidator.resolve_client self ck st = (Ok tt, st1) ->
  Request.client (request st1) = None ->
  OAuth1RequestValidator.validate_redirect_uri self ck uri st
  = (Ok false, st1).
Proof.
  intros Hresolve Hclient.
  unfold OAuth1RequestValidator.validate_redirect_uri, bind.
  rewrite Hresolve.
  unfold OAuth1RequestValidator.get_request, ret. simpl.
  by rewrite Hclient.
Qed.

(** X16. Called without required realms ([realms] left at its default
    [None]), [validate_realms] raises [TypeError] once the token is
    resolved. *)
Theorem validate_realms_without_realms self ck token uri st tok st' :
  resolves_access_token self ck token st tok st' ->
  OAuth1RequestValidator.validate_realms self ck token uri None st
  = (Raise TypeError, st').
Proof.
  unfold resolves_access_token,
    OAuth1RequestValidator.validate_realms,
    OAuth1RequestValidator.get_request,
    OAuth1RequestValidator.set_request, bind, modify, ret.
  destruct (Request.access_token (request st)) as [k|] eqn:Hreq.
  - intros [-> ->]. reflexivity.
  - intros (st1 & Hget & ->). rewrite Hget. reflexivity.
Qed.

(** The five length ranges (client key, request token, access token,
    nonce, verifier) are read from the one configuration key, so they are
    equal for every configuration, and (20, 30) when the key is not set. *)
Lemma key_lengths_share_one_setting self :
  OAuth1RequestValidator.client_key_length self
    = default (20, 30)%Z (OAUTH1_PROVIDER_KEY_LENGTH
                            (OAuth1RequestValidator._config self)) /\
  OAuth1RequestValidator.reqeust_token_length self
    = OAuth1RequestValidator.client_key_length self /\
  OAuth1RequestValidator.access_token_length self
    = OAuth1RequestValidator.client_key_length self /\
  OAuth1RequestValidator.nonce_length self
    = OAuth1RequestValidator.client_key_length self /\
  OAuth1RequestValidator.verifier_length self
    = OAuth1RequestValidator.client_key_length self.
Proof. repeat split. Qed.

End RealmEdgeFacts.

Lemma validate_requested_realms_needs_default_realms_witness :
  OAuth1RequestValidator.validate_requested_realms MemoryStore.validator
    "unknown" ["email"] MemoryStore.populated
    = (Raise AttributeError, MemoryStore.populated) /\
  OAuth1RequestValidator.get_default_realms MemoryStore.validator
    "unknown" MemoryStore.populated
    = (Ok [], MemoryStore.populated).
Proof.
  apply (validate_requested_realms_needs_default_realms
           MemoryStore.validator "unknown" ["email"]
           MemoryStore.populated MemoryStore.populated).
  - vm_compute. reflexivity.
  - intros c Hc. discriminate Hc.
Defined.

Lemma validate_requested_realms_delegates_witness :
  OAuth1RequestValidator.validate_requested_realms MemoryStore.validator
    "ck2" ["email"; "admin"] MemoryStore.granting
  = (Ok false,
     {| request :=
          Request.set_client (Some MemoryStore.client2)
            (request MemoryStore.granting);
        store := store MemoryStore.granting |}).
Proof.
  apply (validate_requested_realms_delegates MemoryStore.validator
           "ck2" ["email"; "admin"] MemoryStore.granting
           MemoryStore.client2 _
           (fun requested => forallb (String.eqb "email") requested)).
  - unfold resolves_client. simpl.
    exists MemoryStore.granting. split; vm_compute; reflexivity.
  - reflexivity.
Defined.

Lemma get_realms_defaults_to_empty_witness :
  fst (OAuth1RequestValidator.get_realms MemoryStore.validator
         "unknown" MemoryStore.granting)
  = Ok [].
Proof.
  apply (get_realms_defaults_to_empty MemoryStore.validator
           "unknown" MemoryStore.granting None MemoryStore.granting).
  vm_compute. reflexivity.
Defined.

Lemma verify_realms_iff_same_set_witness :
  exists verdict st',
    OAuth1RequestValidator.verify_realms MemoryStore.validator
      "rt1" ["address"; "email"; "address"] MemoryStore.granting
      = (Ok verdict, st') /\
    (verdict = true <->
     forall r, r ∈ ["email"; "address"] <->
               r ∈ ["address"; "email"; "address"]).
Proof.
  apply (verify_realms_iff_same_set MemoryStore.validator
           "rt1" ["address"; "email"; "address"] MemoryStore.granting
           MemoryStore.grant1 MemoryStore.granting).
  - vm_compute. reflexivity.
  - reflexivity.
Defined.

Lemma verify_realms_without_attribute_witness :
  fst (OAuth1RequestValidator.verify_realms MemoryStore.validator
         "rt2" ["anything"] MemoryStore.granting)
  = Ok true.
Proof.
  apply (verify_realms_without_attribute MemoryStore.validator
           "rt2" ["anything"] MemoryStore.granting
           MemoryStore.grant_without_realms MemoryStore.granting).
  - vm_compute. reflexivity.
  - reflexivity.
Defined.

Lemma verify_realms_unset_realms_witness :
  fst (OAuth1RequestValidator.verify_realms MemoryStore.validator
         "rt3" [] MemoryStore.granting)
    = Raise TypeError /\
  fst (OAuth1RequestValidator.get_realms MemoryStore.validator
         "rt3" MemoryStore.granting) = Ok [].
Proof.
  apply (verify_realms_unset_realms MemoryStore.validator
           "rt3" [] MemoryStore.granting
           MemoryStore.grant_with_unset_realms MemoryStore.granting).
  - vm_compute. reflexivity.
  - reflexivity.
Defined.

Lemma validate_redirect_uri_iff_witness :
  exists verdict st',
    OAuth1RequestValidator.validate_redirect_uri MemoryStore.validator
      "ck1" (Some "https://client.example/cb") MemoryStore.populated
      = (Ok verdict, st') /\
    (verdict = true <->
     (Client.redirect_uris MemoryStore.client1 = [] /\
      Some "https://client.example/cb" = None) \/
     (exists u, Some "https://client.example/cb" = Some u /\
                u ∈ Client.redirect_uris MemoryStore.client1)).
Proof.
  apply (validate_redirect_uri_iff MemoryStore.validator
           "ck1" (Some "https://client.example/cb") MemoryStore.populated
           {| request :=
                Request.set_client (Some MemoryStore.client1)
                  (request MemoryStore.populated);
              store := store MemoryStore.populated |}
           MemoryStore.client1).
  - vm_compute. reflexivity.
  - reflexivity.
Defined.

Lemma validate_redirect_uri_unknown_client_witness :
  OAuth1RequestValidator.validate_redirect_uri MemoryStore.validator
    "unknown" (Some "https://client.example/cb") MemoryStore.populated
  = (Ok false, MemoryStore.populated).
Proof.
  apply (validate_redirect_uri_unknown_client MemoryStore.validator
           "unknown" (Some "https://client.example/cb")
           MemoryStore.populated MemoryStore.populated).
  - vm_compute. reflexivity.
  - reflexivity.
Defined.

Lemma validate_realms_without_realms_witness :
  OAuth1RequestValidator.validate_realms MemoryStore.validator
    "ck1" "at1" None None MemoryStore.populated
  = (Raise TypeError,
     {| request :=
          Request.set_access_token (Some MemoryStore.token1)
            (request MemoryStore.populated);
        store := store MemoryStore.populated |}).
Proof.
  apply (validate_realms_without_realms MemoryStore.validator
           "ck1" "at1" None MemoryStore.populated MemoryStore.token1).
  unfold resolves_access_token. simpl.
  exists MemoryStore.populated. split; vm_compute; reflexivity.
Defined.

(** * Further properties of the provider *)

(** ** Registration and the server *)

Section RegistrationFacts.
Context {S : Type}.
Implicit Types (st : OAuth1Provider.PState S).

(** X18. Binding an application and registering the seven callbacks is
    enough: the server is built, and its validator holds exactly the
    callbacks that were registered, the application's configuration and no
    verifier callbacks; the signature check is replaced exactly when the
    application is in testing mode. *)
Theorem server_holds_registered_callbacks
    (a : App) cg tg ts gg gs ng ns fr (s : S) :
  let p :=
    OAuth1Provider.noncesetter ns
      (OAuth1Provider.noncegetter ng
        (OAuth1Provider.grantsetter gs
          (OAuth1Provider.grantgetter gg
            (OAuth1Provider.tokensetter ts
              (OAuth1Provider.tokengetter tg
                (OAuth1Provider.clientgetter cg
                  (OAuth1Provider.__init__ (Some a)))))))) in
  let validator :=
    OAuth1RequestValidator.__init__ cg tg ts gg gs ng ns None None
      (Some (config a)) in
  OAuth1Provider.server
    {| OAuth1Provider.self := p; OAuth1Provider.flask_request := fr;
       OAuth1Provider.pstore := s |}
  = (Ok {| request_validator := validator;
           _check_signature :=
             if testing a then Some (fun _ => true) else None |},
     {| OAuth1Provider.self :=
          OAuth1Provider.set_validator (Some validator) p;
        OAuth1Provider.flask_request := fr;
        OAuth1Provider.pstore := s |}).
Proof.
  simpl. unfold OAuth1Provider.server, OAuth1Provider.get_self, bind, ret.
  simpl. unfold modify, OAuth1Provider.update_self. simpl.
  destruct (testing a); reflexivity.
Qed.

(** X19. With the seven callbacks registered but no application bound,
    building the server raises [AttributeError], not [RuntimeError], and
    leaves the provider as it was. *)
Theorem server_without_app st :
  OAuth1Provider._validator (OAuth1Provider.self st) = None ->
  OAuth1Provider.required_registered (OAuth1Provider.self st) = true ->
  OAuth1Provider.app (OAuth1Provider.self st) = None ->
  OAuth1Provider.server st = (Raise AttributeError, st).
Proof.
  intros Hv Hreg Happ.
  unfold OAuth1Provider.server, OAuth1Provider.get_self, bind, ret.
  unfold OAuth1Provider.required_registered in Hreg.
  rewrite Hv, Happ.
  destruct (OAuth1Provider._clientgetter (OAuth1Provider.self st));
    [|discriminate Hreg].
  destruct (OAuth1Provider._tokengetter (OAuth1Provider.self st));
    [|discriminate Hreg].
  destruct (OAuth1Provider._tokensetter (OAuth1Provider.self st));
    [|discriminate Hreg].
  destruct (OAuth1Provider._noncegetter (OAuth1Provider.self st));
    [|discriminate Hreg].
  destruct (OAuth1Provider._noncesetter (OAuth1Provider.self st));
    [|discriminate Hreg].
  destruct (OAuth1Provider._grantgetter (OAuth1Provider.self st));
    [|discriminate Hreg].
  destruct (OAuth1Provider._grantsetter (OAuth1Provider.self st));
    [|discriminate Hreg].
  reflexivity.
Qed.

(** A successful [self.server] leaves the server in its slot. *)
Lemma self_server_fills_slot st srv st' :
  OAuth1Provider.self_server st = (Ok srv, st') ->
  OAuth1Provider.cached_server (OAuth1Provider.self st') = Some srv.
Proof.
  unfold OAuth1Provider.self_server, OAuth1Provider.cached_property,
    OAuth1Provider.get_self, bind, ret, modify.
  destruct (OAuth1Provider.cached_server (OAuth1Provider.self st))
    as [v|] eqn:Hslot.
  - by intros [= <- <-].
  - destruct (OAuth1Provider.server st) as [[v|e] st1]; [|discriminate].
    by intros [= <- <-].
Qed.

Lemma self_server_from_slot st srv :
  OAuth1Provider.cached_server (OAuth1Provider.self st) = Some srv ->
  OAuth1Provider.self_server st = (Ok srv, st).
Proof.
  intros Hslot.
  unfold OAuth1Provider.self_server, OAuth1Provider.cached_property,
    OAuth1Provider.get_self, bind, ret.
  by rewrite Hslot.
Qed.

(** X20. The server is built once. After a successful [self.server], any
    change to the provider that leaves the slot alone (registering
    another callback, binding another application) has no effect on what
    [self.server] returns: it is the server built the first time. *)
Theorem self_server_ignores_later_registration st srv st'
    (change : OAuth1Provider.t S -> OAuth1Provider.t S) :
  OAuth1Provider.self_server st = (Ok srv, st') ->
  (forall p, OAuth1Provider.cached_server (change p)
             = OAuth1Provider.cached_server p) ->
  OAuth1Provider.self_server (OAuth1Provider.update_self change st')
  = (Ok srv, OAuth1Provider.update_self change st').
Proof.
  intros Hsrv Hkeeps.
  apply self_server_from_slot. simpl.
  rewrite Hkeeps. by apply (self_server_fills_slot st).
Qed.

(** X21. A failed build is not kept. On a provider with nothing in the
    slot, no validator assigned and a required callback missing,
    [self.server] raises [RuntimeError] and leaves the provider as it was;
    once an application is bound and the seven callbacks are registered,
    [self.server] builds the server and keeps it. *)
Theorem self_server_retries_after_failure st a cg tg ts gg gs ng ns :
  OAuth1Provider._validator (OAuth1Provider.self st) = None ->
  OAuth1Provider.cached_server (OAuth1Provider.self st) = None ->
  OAuth1Provider.required_registered (OAuth1Provider.self st) = false ->
  OAuth1Provider.self_server st = (Raise RuntimeError, st) /\
  exists srv st',
    OAuth1Provider.self_server
      (OAuth1Provider.update_self
         (fun p =>
            OAuth1Provider.noncesetter ns
              (OAuth1Provider.noncegetter ng
                (OAuth1Provider.grantsetter gs
                  (OAuth1Provider.grantgetter gg
                    (OAuth1Provider.tokensetter ts
                      (OAuth1Provider.tokengetter tg
                        (OAuth1Provider.clientgetter cg
                          (OAuth1Provider.init_app a p)))))))) st)
      = (Ok srv, st') /\
    OAuth1Provider.cached_server (OAuth1Provider.self st') = Some srv.
Proof.
  intros Hv Hslot Hreg. split.
  - unfold OAuth1Provider.self_server, OAuth1Provider.cached_property,
      OAuth1Provider.get_self, bind, ret.
    rewrite Hslot.
    unfold OAuth1Provider.server, OAuth1Provider.get_self, bind, ret.
    unfold OAuth1Provider.required_registered in Hreg.
    rewrite Hv.
    destruct (OAuth1Provider._clientgetter (OAuth1Provider.self st));
      [|reflexivity].
    destruct (OAuth1Provider._tokengetter (OAuth1Provider.self st));
      [|reflexivity].
    destruct (OAuth1Provider._tokensetter (OAuth1Provider.self st));
      [|reflexivity].
    destruct (OAuth1Provider._noncegetter (OAuth1Provider.self st));
      [|reflexivity].
    destruct (OAuth1Provider._noncesetter (OAuth1Provider.self st));
      [|reflexivity].
    destruct (OAuth1Provider._grantgetter (OAuth1Provider.self st));
      [|reflexivity].
    destruct (OAuth1Provider._grantsetter (OAuth1Provider.self st));
      [|reflexivity].
    discriminate Hreg.
  - unfold OAuth1Provider.self_server, OAuth1Provider.cached_property,
      OAuth1Provider.get_self, bind, ret, modify.
    simpl. rewrite Hslot.
    unfold OAuth1Provider.server, OAuth1Provider.get_self, bind, ret, modify.
    simpl. rewrite Hv. simpl.
    destruct (testing a); do 2 eexists; split; reflexivity.
Qed.

End RegistrationFacts.

Lemma server_without_app_witness :
  OAuth1Provider.server
    (MemoryStore.serving
       (OAuth1Provider.set_app None MemoryStore.registered) "GET")
  = (Raise AttributeError,
     MemoryStore.serving
       (OAuth1Provider.set_app None MemoryStore.registered) "GET").
Proof.
  apply (server_without_app
           (MemoryStore.serving
              (OAuth1Provider.set_app None MemoryStore.registered) "GET"));
    reflexivity.
Defined.

Lemma self_server_ignores_later_registration_witness :
  OAuth1Provider.self_server
    (OAuth1Provider.update_self
       (OAuth1Provider.verifiergetter MemoryStore.get_verifier)
       (OAuth1Provider.update_self
          (OAuth1Provider.set_cached_server
             (Some {| request_validator :=
                        MemoryStore.validator_without_verifier;
                      _check_signature := Some (fun _ => true) |}))
          (OAuth1Provider.update_self
             (OAuth1Provider.set_validator
                (Some MemoryStore.validator_without_verifier))
             (MemoryStore.serving MemoryStore.registered "GET"))))
  = (Ok {| request_validator := MemoryStore.validator_without_verifier;
           _check_signature := Some (fun _ => true) |},
     OAuth1Provider.update_self
       (OAuth1Provider.verifiergetter MemoryStore.get_verifier)
       (OAuth1Provider.update_self
          (OAuth1Provider.set_cached_server
             (Some {| request_validator :=
                        MemoryStore.validator_without_verifier;
                      _check_signature := Some (fun _ => true) |}))
          (OAuth1Provider.update_self
             (OAuth1Provider.set_validator
                (Some MemoryStore.validator_without_verifier))
             (MemoryStore.serving MemoryStore.registered "GET")))).
Proof.
  apply (self_server_ignores_later_registration
           (MemoryStore.serving MemoryStore.registered "GET")).
  - reflexivity.
  - reflexivity.
Defined.

Lemma self_server_retries_after_failure_witness :
  OAuth1Provider.self_server
    (MemoryStore.serving (OAuth1Provider.__init__ None) "GET")
  = (Raise RuntimeError,
     MemoryStore.serving (OAuth1Provider.__init__ None) "GET").
Proof.
  apply (self_server_retries_after_failure
           (MemoryStore.serving (OAuth1Provider.__init__ None) "GET")
           MemoryStore.testing_app MemoryStore.get_client
           MemoryStore.get_access_token MemoryStore.save_access_token
           MemoryStore.get_request_token MemoryStore.save_request_token
           MemoryStore.get_nonce MemoryStore.save_nonce);
    reflexivity.
Defined.

(** ** The error page and the views *)

Section ViewEdgeFacts.
Context {S : Type} `{!OAuth1Provider.Externals S}.
Implicit Types (st : OAuth1Provider.PState S).

(** X22. When no error URI is configured, or the configured one is the
    empty string, a configured error endpoint decides: the error page is
    [url_for] of it. *)
Theorem error_uri_from_endpoint st a endpoint :
  OAuth1Provider.app (OAuth1Provider.self st) = Some a ->
  OAUTH1_PROVIDER_ERROR_URI (config a) = None \/
  OAUTH1_PROVIDER_ERROR_URI (config a) = Some "" ->
  OAUTH1_PROVIDER_ERROR_ENDPOINT (config a) = Some endpoint ->
  endpoint <> "" ->
  OAuth1Provider.error_uri st
  = (Ok (OAuth1Provider.url_for endpoint), st).
Proof.
  intros Happ Huri Hendpoint Hne.
  unfold OAuth1Provider.error_uri, OAuth1Provider.get_self, bind, ret.
  rewrite Happ. simpl. rewrite Hendpoint.
  assert (OAuth1Provider.truthy_entry (OAUTH1_PROVIDER_ERROR_URI (config a))
          = None) as ->.
  { destruct Huri as [-> | ->]; reflexivity. }
  simpl. destruct (String.eqb endpoint "") eqn:Heq; [|reflexivity].
  apply String.eqb_eq in Heq. contradiction.
Qed.

(** X23. The error page is looked up once. After a successful
    [self.error_uri], a change to the provider that leaves the slot alone
    (binding an application with another configuration, say) does not
    change what [self.error_uri] returns. *)
Theorem self_error_uri_ignores_later_binding st base st'
    (change : OAuth1Provider.t S -> OAuth1Provider.t S) :
  OAuth1Provider.self_error_uri st = (Ok base, st') ->
  (forall p, OAuth1Provider.cached_error_uri (change p)
             = OAuth1Provider.cached_error_uri p) ->
  OAuth1Provider.self_error_uri (OAuth1Provider.update_self change st')
  = (Ok base, OAuth1Provider.update_self change st').
Proof.
  intros Hbase Hkeeps.
  assert (OAuth1Provider.cached_error_uri (OAuth1Provider.self st')
          = Some base) as Hslot.
  { revert Hbase.
    unfold OAuth1Provider.self_error_uri, OAuth1Provider.cached_property,
      OAuth1Provider.get_self, bind, ret, modify.
    destruct (OAuth1Provider.cached_error_uri (OAuth1Provider.self st))
      as [v|] eqn:Hslot.
    - by intros [= <- <-].
    - destruct (OAuth1Provider.error_uri st) as [[v|e] st1]; [|discriminate].
      by intros [= <- <-]. }
  unfold OAuth1Provider.self_error_uri, OAuth1Provider.cached_property,
    OAuth1Provider.get_self, bind, ret.
  simpl. by rewrite Hkeeps, Hslot.
Qed.

(** X24. On a provider that is bound to no application and has no error
    page in its slot, a denied authorization does not redirect: looking
    the error page up raises [AttributeError]. *)
Theorem authorize_handler_denied_without_app
    (f : OAuth1Provider.Handler S retval) args kwargs st decision st1 :
  method (OAuth1Provider.flask_request st) = "POST" ->
  f args kwargs st = (Ok decision, st1) ->
  retval_truthy decision = false ->
  OAuth1Provider.app (OAuth1Provider.self st1) = None ->
  OAuth1Provider.cached_error_uri (OAuth1Provider.self st1) = None ->
  OAuth1Provider.authorize_handler f args kwargs st
  = (Raise AttributeError, st1).
Proof.
  intros Hmethod Hdecision Hfalsy Happ Hslot.
  unfold OAuth1Provider.authorize_handler, bind, get.
  rewrite Hmethod. simpl. rewrite Hdecision, Hfalsy. simpl.
  unfold OAuth1Provider.self_error_uri, OAuth1Provider.cached_property,
    OAuth1Provider.get_self, bind, ret.
  rewrite Hslot.
  unfold OAuth1Provider.error_uri, OAuth1Provider.get_self, bind, ret.
  by rewrite Happ.
Qed.

(** X25. An [OAuth1Error] raised by the request-token endpoint is turned
    into a response: the error's status code, its urlencoded form as the
    body, and the form content type. *)
Theorem request_token_handler_converts_oauth1_error
    (f : OAuth1Provider.Handler S (option (gmap string string)))
    args kwargs st srv st1 params st2 credentials st3 e st4 :
  OAuth1Provider.self_server st = (Ok srv, st1) ->
  OAuth1Provider._extract_params st1 = (Ok params, st2) ->
  f args kwargs st2 = (Ok credentials, st3) ->
  OAuth1Provider.create_request_token_response srv params credentials st3
    = (Raise (OAuth1Error e), st4) ->
  OAuth1Provider.request_token_handler f args kwargs st
  = (Ok (MakeResponse (urlencoded e) (status_code e)
           [("Content-Type", "application/x-www-form-urlencoded")]), st4).
Proof.
  intros Hsrv Hparams Hf Hendpoint.
  unfold OAuth1Provider.request_token_handler, bind, try_except.
  rewrite Hsrv, Hparams, Hf, Hendpoint. reflexivity.
Qed.

(** When the access-token endpoint answers, the response carries the
    endpoint's status and headers, and its body, an absent body becoming
    the empty string. *)
Lemma access_token_handler_success
    (f : OAuth1Provider.Handler S (option (gmap string string)))
    args kwargs st srv st1 params st2 credentials st3
    uri hdrs body status st4 :
  OAuth1Provider.self_server st = (Ok srv, st1) ->
  OAuth1Provider._extract_params st1 = (Ok params, st2) ->
  f args kwargs st2 = (Ok credentials, st3) ->
  OAuth1Provider.create_access_token_response srv params credentials st3
    = (Ok (uri, hdrs, body, status), st4) ->
  OAuth1Provider.access_token_handler f args kwargs st
  = (Ok (MakeResponse (default "" body) status hdrs), st4).
Proof.
  intros Hsrv Hparams Hf Hendpoint.
  unfold OAuth1Provider.access_token_handler, bind, try_except, ret.
  rewrite Hsrv, Hparams, Hf, Hendpoint. reflexivity.
Qed.

(** X27. The token handlers catch [OAuth1Error] only: any other exception
    raised by the endpoint leaves the decorated view as it is. *)
Theorem token_handlers_pass_other_exceptions
    (f : OAuth1Provider.Handler S (option (gmap string string)))
    args kwargs st srv st1 params st2 credentials st3 e st4 st5 :
  OAuth1Provider.self_server st = (Ok srv, st1) ->
  OAuth1Provider._extract_params st1 = (Ok params, st2) ->
  f args kwargs st2 = (Ok credentials, st3) ->
  (forall oe, e <> OAuth1Error oe) ->
  OAuth1Provider.create_request_token_response srv params credentials st3
    = (Raise e, st4) ->
  OAuth1Provider.create_access_token_response srv params credentials st3
    = (Raise e, st5) ->
  OAuth1Provider.request_token_handler f args kwargs st = (Raise e, st4) /\
  OAuth1Provider.access_token_handler f args kwargs st = (Raise e, st5).
Proof.
  intros Hsrv Hparams Hf Hother Hrequest Haccess.
  unfold OAuth1Provider.request_token_handler,
    OAuth1Provider.access_token_handler, bind, try_except.
  rewrite Hsrv, Hparams, Hf, Hrequest, Haccess.
  destruct e as [| | | code | oe]; try done.
  by destruct (Hother oe).
Qed.

(** X28. The wrapped view of a token handler runs outside the [try]: an
    exception it raises, an [OAuth1Error] included, is not converted, and
    the endpoint is not called. *)
Theorem token_handlers_do_not_catch_view_errors
    (f : OAuth1Provider.Handler S (option (gmap string string)))
    args kwargs st srv st1 params st2 e st3 :
  OAuth1Provider.self_server st = (Ok srv, st1) ->
  OAuth1Provider._extract_params st1 = (Ok params, st2) ->
  f args kwargs st2 = (Raise e, st3) ->
  OAuth1Provider.request_token_handler f args kwargs st = (Raise e, st3) /\
  OAuth1Provider.access_token_handler f args kwargs st = (Raise e, st3).
Proof.
  intros Hsrv Hparams Hf.
  unfold OAuth1Provider.request_token_handler,
    OAuth1Provider.access_token_handler, bind.
  by rewrite Hsrv, Hparams, Hf.
Qed.

(** X29. When the server cannot be built, [require_oauth] and the token
    handlers raise what building it raised, and the wrapped view is not
    run. *)
Theorem views_need_the_server {R} (realms_ : list string)
    (f : OAuth1Provider.Handler S R)
    (g : OAuth1Provider.Handler S (option (gmap string string)))
    args kwargs st e st1 :
  OAuth1Provider.self_server st = (Raise e, st1) ->
  OAuth1Provider.require_oauth realms_ f args kwargs st = (Raise e, st1) /\
  OAuth1Provider.request_token_handler g args kwargs st = (Raise e, st1) /\
  OAuth1Provider.access_token_handler g args kwargs st = (Raise e, st1).
Proof.
  intros Hsrv.
  unfold OAuth1Provider.require_oauth, OAuth1Provider.request_token_handler,
    OAuth1Provider.access_token_handler, bind.
  by rewrite Hsrv.
Qed.

(** X30. When confirming an authorization, an [OAuth1Error] raised by
    [create_authorization_response] becomes a redirect to the error page
    with the error put in its URI. *)
Theorem confirm_authorization_request_redirects_error
    st srv st1 params st2 realms_ credentials st3 e st4 base st5 :
  OAuth1Provider.self_server st = (Ok srv, st1) ->
  OAuth1Provider._extract_params st1 = (Ok params, st2) ->
  OAuth1Provider.get_realms_and_credentials srv params st2
    = (Ok (realms_, credentials), st3) ->
  OAuth1Provider.create_authorization_response srv params realms_
    credentials st3 = (Raise (OAuth1Error e), st4) ->
  OAuth1Provider.self_error_uri st4 = (Ok base, st5) ->
  OAuth1Provider.confirm_authorization_request st
  = (Ok (Resp (Redirect (OAuth1Provider.in_uri e base))), st5).
Proof.
  intros Hsrv Hparams Hrc Hcreate Hbase.
  unfold OAuth1Provider.confirm_authorization_request, bind, try_except.
  rewrite Hsrv, Hparams, Hrc, Hcreate, Hbase. reflexivity.
Qed.

(** X26. The same error raised one step earlier, by
    [get_realms_and_credentials], is outside the [try]: it is not turned
    into a redirect, neither when confirming an authorization nor when
    presenting it. *)
Theorem authorization_does_not_catch_credential_errors
    (f : OAuth1Provider.Handler S retval) args kwargs
    st srv st1 params st2 e st3 :
  OAuth1Provider.self_server st = (Ok srv, st1) ->
  OAuth1Provider._extract_params st1 = (Ok params, st2) ->
  OAuth1Provider.get_realms_and_credentials srv params st2
    = (Raise e, st3) ->
  OAuth1Provider.confirm_authorization_request st = (Raise e, st3) /\
  (method (OAuth1Provider.flask_request st) <> "POST" ->
   OAuth1Provider.authorize_handler f args kwargs st = (Raise e, st3)).
Proof.
  intros Hsrv Hparams Hrc. split.
  - unfold OAuth1Provider.confirm_authorization_request, bind.
    by rewrite Hsrv, Hparams, Hrc.
  - intros Hmethod.
    unfold OAuth1Provider.authorize_handler, bind, get.
    apply String.eqb_neq in Hmethod. rewrite Hmethod.
    by rewrite Hsrv, Hparams, Hrc.
Qed.

End ViewEdgeFacts.

Section PresentationFacts.
Context {S : Type} `{!OAuth1Provider.Externals S}.
Implicit Types (st : OAuth1Provider.PState S).

(** X17. On any method but POST, the authorization view is run with its
    keyword arguments extended: every credential of the request is passed
    under its own name, [realms] holds the realms of the request unless a
    credential of that name takes its place, and the other keyword
    arguments are passed on as they came. *)
Theorem authorize_handler_presentation
    (f : OAuth1Provider.Handler S retval) args
    (kwargs : gmap string kwval) st srv st1 params st2
    realms_ (credentials : gmap string string) st3 :
  method (OAuth1Provider.flask_request st) <> "POST" ->
  OAuth1Provider.self_server st = (Ok srv, st1) ->
  OAuth1Provider._extract_params st1 = (Ok params, st2) ->
  OAuth1Provider.get_realms_and_credentials srv params st2
    = (Ok (realms_, credentials), st3) ->
  exists kwargs' : gmap string kwval,
    OAuth1Provider.authorize_handler f args kwargs st = f args kwargs' st3 /\
    (forall k v, credentials !! k = Some v ->
                 kwargs' !! k = Some (KwValue (PyStr v))) /\
    (credentials !! "realms" = None ->
     kwargs' !! "realms" = Some (KwRealms realms_)) /\
    (forall k, k <> "realms" -> credentials !! k = None ->
               kwargs' !! k = kwargs !! k).
Proof.
  intros Hmethod Hsrv Hparams Hrc.
  eexists. split.
  - unfold OAuth1Provider.authorize_handler, bind, get.
    apply String.eqb_neq in Hmethod. rewrite Hmethod.
    rewrite Hsrv, Hparams, Hrc. reflexivity.
  - split; [|split].
    + intros k v Hk. apply lookup_union_Some_l.
      by rewrite lookup_fmap, Hk.
    + intros Hnone. rewrite lookup_union_r.
      * by rewrite lookup_insert_eq.
      * by rewrite lookup_fmap, Hnone.
    + intros k Hne Hnone. rewrite lookup_union_r.
      * by rewrite lookup_insert_ne.
      * by rewrite lookup_fmap, Hnone.
Qed.

End PresentationFacts.

Lemma authorize_handler_presentation_witness :
  exists kwargs' : gmap string kwval,
    OAuth1Provider.authorize_handler (H := MemoryStore.rejecting)
      MemoryStore.realms_view [] {["page" := KwValue (PyInt 1)]}
      (OAuth1Provider.update_self
         (OAuth1Provider.set_cached_server
            (Some (Server_new MemoryStore.validator)))
         (MemoryStore.serving MemoryStore.registered "GET"))
    = MemoryStore.realms_view [] kwargs'
        (OAuth1Provider.update_self
           (OAuth1Provider.set_cached_server
              (Some (Server_new MemoryStore.validator)))
           (MemoryStore.serving MemoryStore.registered "GET")) /\
    (forall k v,
       ({["resource_owner_key" := "rt1"]} : gmap string string) !! k
         = Some v ->
       kwargs' !! k = Some (KwValue (PyStr v))) /\
    (({["resource_owner_key" := "rt1"]} : gmap string string) !! "realms"
       = None ->
     kwargs' !! "realms" = Some (KwRealms ["email"])) /\
    (forall k, k <> "realms" ->
       ({["resource_owner_key" := "rt1"]} : gmap string string) !! k = None ->
       kwargs' !! k
       = ({["page" := KwValue (PyInt 1)]} : gmap string kwval) !! k).
Proof.
  apply (authorize_handler_presentation (H := MemoryStore.rejecting)
           MemoryStore.realms_view [] {["page" := KwValue (PyInt 1)]}
           (OAuth1Provider.update_self
              (OAuth1Provider.set_cached_server
                 (Some (Server_new MemoryStore.validator)))
              (MemoryStore.serving MemoryStore.registered "GET"))
           (Server_new MemoryStore.validator)
           (OAuth1Provider.update_self
              (OAuth1Provider.set_cached_server
                 (Some (Server_new MemoryStore.validator)))
              (MemoryStore.serving MemoryStore.registered "GET"))
           ("https://provider.example/", "GET", [], [])
           (OAuth1Provider.update_self
              (OAuth1Provider.set_cached_server
                 (Some (Server_new MemoryStore.validator)))
              (MemoryStore.serving MemoryStore.registered "GET"))
           ["email"] {["resource_owner_key" := "rt1"]}).
  - discriminate.
  - reflexivity.
  - reflexivity.
  - reflexivity.
Defined.

Lemma error_uri_from_endpoint_witness :
  OAuth1Provider.error_uri
    (MemoryStore.serving
       (OAuth1Provider.__init__ (Some MemoryStore.production_app)) "GET")
  = (Ok (OAuth1Provider.url_for "oauth.error"),
     MemoryStore.serving
       (OAuth1Provider.__init__ (Some MemoryStore.production_app)) "GET").
Proof.
  apply (error_uri_from_endpoint
           (MemoryStore.serving
              (OAuth1Provider.__init__ (Some MemoryStore.production_app))
              "GET")
           MemoryStore.production_app "oauth.error").
  - reflexivity.
  - right. reflexivity.
  - reflexivity.
  - discriminate.
Defined.

Lemma self_error_uri_ignores_later_binding_witness :
  OAuth1Provider.self_error_uri
    (OAuth1Provider.update_self
       (OAuth1Provider.init_app MemoryStore.production_app)
       (OAuth1Provider.update_self
          (OAuth1Provider.set_cached_error_uri (Some "/oauth/errors"))
          (MemoryStore.serving MemoryStore.registered "POST")))
  = (Ok "/oauth/errors",
     OAuth1Provider.update_self
       (OAuth1Provider.init_app MemoryStore.production_app)
       (OAuth1Provider.update_self
          (OAuth1Provider.set_cached_error_uri (Some "/oauth/errors"))
          (MemoryStore.serving MemoryStore.registered "POST"))).
Proof.
  apply (self_error_uri_ignores_later_binding
           (MemoryStore.serving MemoryStore.registered "POST")).
  - vm_compute. reflexivity.
  - reflexivity.
Defined.

Lemma authorize_handler_denied_without_app_witness :
  OAuth1Provider.authorize_handler MemoryStore.denying_view [] ∅
    (MemoryStore.serving (OAuth1Provider.__init__ None) "POST")
  = (Raise AttributeError,
     MemoryStore.serving (OAuth1Provider.__init__ None) "POST").
Proof.
  apply (authorize_handler_denied_without_app MemoryStore.denying_view [] ∅
           (MemoryStore.serving (OAuth1Provider.__init__ None) "POST")
           (Value (PyBool false)));
    reflexivity.
Defined.

Lemma request_token_handler_converts_oauth1_error_witness :
  fst (OAuth1Provider.request_token_handler (H := MemoryStore.rejecting)
         MemoryStore.credentials_view [] ∅
         (MemoryStore.serving MemoryStore.registered "POST"))
  = Ok (MakeResponse "error=invalid_request" 400
          [("Content-Type", "application/x-www-form-urlencoded")]).
Proof.
  erewrite (request_token_handler_converts_oauth1_error
              (H := MemoryStore.rejecting)
              MemoryStore.credentials_view [] ∅
              (MemoryStore.serving MemoryStore.registered "POST"));
    cycle 1.
  - vm_compute. reflexivity.
  - vm_compute. reflexivity.
  - vm_compute. reflexivity.
  - vm_compute. reflexivity.
  - reflexivity.
Defined.

Lemma access_token_handler_success_witness :
  fst (OAuth1Provider.access_token_handler
         MemoryStore.credentials_view [] ∅
         (MemoryStore.serving MemoryStore.registered "POST"))
  = Ok (MakeResponse "" 200 []).
Proof.
  erewrite (access_token_handler_success
              MemoryStore.credentials_view [] ∅
              (MemoryStore.serving MemoryStore.registered "POST"));
    cycle 1.
  - vm_compute. reflexivity.
  - vm_compute. reflexivity.
  - vm_compute. reflexivity.
  - vm_compute. reflexivity.
  - reflexivity.
Defined.

Lemma token_handlers_pass_other_exceptions_witness :
  fst (OAuth1Provider.request_token_handler (H := MemoryStore.faulting)
         MemoryStore.credentials_view [] ∅
         (MemoryStore.serving MemoryStore.registered "POST"))
    = Raise AttributeError /\
  fst (OAuth1Provider.access_token_handler (H := MemoryStore.faulting)
         MemoryStore.credentials_view [] ∅
         (MemoryStore.serving MemoryStore.registered "POST"))
    = Raise AttributeError.
Proof.
  edestruct (token_handlers_pass_other_exceptions
               (H := MemoryStore.faulting)
               MemoryStore.credentials_view [] ∅
               (MemoryStore.serving MemoryStore.registered "POST"))
    as [Hrequest Haccess].
  - vm_compute. reflexivity.
  - vm_compute. reflexivity.
  - vm_compute. reflexivity.
  - intros oe. instantiate (1 := AttributeError). discriminate.
  - vm_compute. reflexivity.
  - vm_compute. reflexivity.
  - rewrite Hrequest, Haccess. split; reflexivity.
Defined.

Lemma token_handlers_do_not_catch_view_errors_witness :
  fst (OAuth1Provider.request_token_handler
         MemoryStore.raising_view [] ∅
         (MemoryStore.serving MemoryStore.registered "POST"))
    = Raise (OAuth1Error MemoryStore.invalid_request) /\
  fst (OAuth1Provider.access_token_handler
         MemoryStore.raising_view [] ∅
         (MemoryStore.serving MemoryStore.registered "POST"))
    = Raise (OAuth1Error MemoryStore.invalid_request).
Proof.
  edestruct (token_handlers_do_not_catch_view_errors
               MemoryStore.raising_view [] ∅
               (MemoryStore.serving MemoryStore.registered "POST"))
    as [Hrequest Haccess].
  - vm_compute. reflexivity.
  - vm_compute. reflexivity.
  - vm_compute. reflexivity.
  - rewrite Hrequest, Haccess. split; reflexivity.
Defined.

Lemma views_need_the_server_witness :
  OAuth1Provider.require_oauth ["email"] MemoryStore.resource_view [] ∅
    (MemoryStore.serving MemoryStore.unregistered "GET")
    = (Raise RuntimeError,
       MemoryStore.serving MemoryStore.unregistered "GET") /\
  OAuth1Provider.request_token_handler MemoryStore.credentials_view [] ∅
    (MemoryStore.serving MemoryStore.unregistered "GET")
    = (Raise RuntimeError,
       MemoryStore.serving MemoryStore.unregistered "GET") /\
  OAuth1Provider.access_token_handler MemoryStore.credentials_view [] ∅
    (MemoryStore.serving MemoryStore.unregistered "GET")
    = (Raise RuntimeError,
       MemoryStore.serving MemoryStore.unregistered "GET").
Proof.
  apply (views_need_the_server ["email"] MemoryStore.resource_view
           MemoryStore.credentials_view [] ∅
           (MemoryStore.serving MemoryStore.unregistered "GET")).
  reflexivity.
Defined.

Lemma confirm_authorization_request_redirects_error_witness :
  fst (OAuth1Provider.confirm_authorization_request
         (H := MemoryStore.rejecting)
         (MemoryStore.serving MemoryStore.registered "POST"))
  = Ok (Resp (Redirect "/oauth/errors?error=invalid_request")).
Proof.
  erewrite (confirm_authorization_request_redirects_error
              (H := MemoryStore.rejecting)
              (MemoryStore.serving MemoryStore.registered "POST"));
    cycle 1.
  - vm_compute. reflexivity.
  - vm_compute. reflexivity.
  - vm_compute. reflexivity.
  - vm_compute. reflexivity.
  - vm_compute. reflexivity.
  - vm_compute. reflexivity.
Defined.

Lemma authorization_does_not_catch_credential_errors_witness :
  fst (OAuth1Provider.confirm_authorization_request
         (H := MemoryStore.faulting)
         (MemoryStore.serving MemoryStore.registered "POST"))
  = Raise (OAuth1Error MemoryStore.invalid_request).
Proof.
  edestruct (authorization_does_not_catch_credential_errors
               (H := MemoryStore.faulting)
               MemoryStore.denying_view [] ∅
               (MemoryStore.serving MemoryStore.registered "POST"))
    as [Hconfirm _].
  - vm_compute. reflexivity.
  - vm_compute. reflexivity.
  - vm_compute. reflexivity.
  - rewrite Hconfirm. reflexivity.
Defined.
